(** * Secure_assess-core: scan orchestration and category scoring

    A shallow embedding of the scoring engine
    ([src/services/scanning/category_checker.py],
    [src/services/compliance/framework_categories.py]), of the scan
    orchestrator ([src/services/scanning/orchestrator.py]) and of the
    result-merging tail of the analysis workers
    ([src/workers/sast_worker.py], [src/workers/dast_worker.py]).

    Conventions of the embedding:
    - Python [str] values are Rocq strings over 8-bit characters;
      [str.lower] and [str.upper] act on the ASCII letters and leave every
      other character unchanged.
    - the scorer is embedded twice.  [CategoryCheckRunner] computes over
      the exact rationals ([Q], compared with [==]): category scores are
      integers between 0 and 100, which binary64 represents exactly, and
      the statements on the overall score made there are bounds by
      integers.  [Binary64] is [calculate_overall_score] on Python's own
      numbers, binary64 floats with every operation rounded to nearest,
      ties to even, and [int]s converted on the way; the statements on the
      value the function returns, and on when it raises, are made there.
    - the JSON columns of a row are plain columns: a commit writes one only
      when its attribute was assigned a value other than the loaded one.
    - a [dict] that the code iterates over is an association list in
      insertion order; a [dict] that is only read by key is a [gmap].
    - exceptions are values of [exc]; a fallible call returns [result]. *)

From Stdlib Require Import ZArith QArith Qround Qabs Lia Lqa.
From Stdlib Require Import String Ascii.
From Stdlib Require Import PrimFloat SpecFloat FloatOps.
From stdpp Require Import gmap strings list fin_maps.

Local Open Scope string_scope.
Local Open Scope list_scope.

Set Warnings "-inexact-float".

(** ** Python primitives *)

Module Py.

(** Exceptions raised by the modelled code. *)
Inductive exc : Type :=
| ValueError (msg : string)
| TypeError (msg : string)
| ZeroDivisionError
| IntegrityError (msg : string)
| BrokerError (msg : string)
| OverflowError (msg : string).

Inductive result (A : Type) : Type :=
| Ok (a : A)
| Raise (e : exc).
Arguments Ok {A} a.
Arguments Raise {A} e.

Definition bind {A B} (r : result A) (k : A -> result B) : result B :=
  match r with
  | Ok a => k a
  | Raise e => Raise e
  end.

(** [str.lower()] and [str.upper()]. *)
Definition lower_ascii (c : ascii) : ascii :=
  let n := N_of_ascii c in
  if ((65 <=? n) && (n <=? 90))%N then ascii_of_N (n + 32) else c.

Definition upper_ascii (c : ascii) : ascii :=
  let n := N_of_ascii c in
  if ((97 <=? n) && (n <=? 122))%N then ascii_of_N (n - 32) else c.

Fixpoint lower (s : string) : string :=
  match s with
  | EmptyString => EmptyString
  | String c s' => String (lower_ascii c) (lower s')
  end.

Fixpoint upper (s : string) : string :=
  match s with
  | EmptyString => EmptyString
  | String c s' => String (upper_ascii c) (upper s')
  end.

(** [x in s] for two strings: [x] occurs in [s] as a substring. *)
Fixpoint str_in (x s : string) : bool :=
  if String.prefix x s then true
  else match s with
       | EmptyString => false
       | String _ s' => str_in x s'
       end.

(** [x in l] for a list of strings. *)
Definition list_in (x : string) (l : list string) : bool :=
  bool_decide (x ∈ l).

(** [any(x in s for x in keys)]. *)
Definition any_in (keys : list string) (s : string) : bool :=
  existsb (fun x => str_in x s) keys.

(** [d.get(k, default)] on an optional field. *)
Definition get {A} (field : option A) (dflt : A) : A :=
  match field with Some a => a | None => dflt end.

(** Comparison and rounding over the rationals. *)
Definition lt (x y : Q) : bool :=
  match Qcompare x y with Lt => true | _ => false end.

(** [min(a, b)] returns [b] only when [b < a]; [max(a, b)] returns [b]
    only when [b > a]. *)
Definition min (a b : Q) : Q := if lt b a then b else a.
Definition max (a b : Q) : Q := if lt a b then b else a.

(** Round to the nearest integer, ties to the even one. *)
Definition round_half_even (q : Q) : Z :=
  let f := Qfloor q in
  match Qcompare (q - inject_Z f)%Q (1 # 2)%Q with
  | Lt => f
  | Gt => (f + 1)%Z
  | Eq => if Z.even f then f else (f + 1)%Z
  end.

(** [round(x, 2)] over the rationals: the nearest hundredth, ties to
    even. *)
Definition round2 (q : Q) : Q :=
  Qmake (round_half_even (q * 100)%Q) 100.

(** [x / y] on floats. *)
Definition truediv (x y : Q) : result Q :=
  if Qeq_bool y 0%Q then Raise ZeroDivisionError else Ok (x / y)%Q.

End Py.

#[global] Instance result_ret : MRet Py.result := fun A a => Py.Ok a.
#[global] Instance result_bind : MBind Py.result := fun A B k r => Py.bind r k.

(** ** Framework registry ([framework_categories.py]) *)

Record CategoryDef : Type := {
  cat_id : string;
  cat_name : string;
  cat_description : string;
  cat_priority : string;        (* High, Medium, Low *)
  cat_checks : list string      (* check ids this category covers *)
}.

Definition OWASP_CATEGORIES : list (string * CategoryDef) := [
  ("A01_BROKEN_ACCESS_CONTROL",
   {| cat_id := "A01";
      cat_name := "Broken Access Control";
      cat_description := "Still the leading risk, covering flaws that allow attackers to bypass authorization or gain unauthorized access.";
      cat_priority := "High";
      cat_checks := ["access_control_bypass"; "privilege_escalation"; "authorization_flaws"; "insecure_direct_object_references"; "cors_misconfiguration"; "missing_access_controls"] |});
  ("A02_CRYPTOGRAPHIC_FAILURES",
   {| cat_id := "A02";
      cat_name := "Cryptographic Failures";
      cat_description := "Insecure or outdated encryption practices that expose sensitive data.";
      cat_priority := "High";
      cat_checks := ["weak_encryption"; "hardcoded_secrets"; "insecure_hashing"; "exposed_credentials"; "weak_tls"; "insufficient_data_protection"] |});
  ("A03_INJECTION",
   {| cat_id := "A03";
      cat_name := "Injection";
      cat_description := "Classic input-validation flaws such as SQL, OS, and template injection that remain common across stacks.";
      cat_priority := "High";
      cat_checks := ["sql_injection"; "os_command_injection"; "template_injection"; "xpath_injection"; "ldap_injection"; "code_injection"] |});
  ("A04_INSECURE_DESIGN",
   {| cat_id := "A04";
      cat_name := "Insecure Design";
      cat_description := "Missing or inadequate security controls in the design phase.";
      cat_priority := "High";
      cat_checks := ["missing_security_controls"; "insecure_patterns"; "rate_limiting_absent"; "missing_authentication"; "weak_session_management"] |});
  ("A05_SECURITY_MISCONFIGURATION",
   {| cat_id := "A05";
      cat_name := "Security Misconfiguration";
      cat_description := "Covers weak default settings, exposed services, and inconsistent security controls across environments.";
      cat_priority := "High";
      cat_checks := ["insecure_defaults"; "exposed_services"; "missing_security_headers"; "debug_mode_enabled"; "default_credentials"; "unnecessary_features_enabled"] |});
  ("A06_VULNERABLE_COMPONENTS",
   {| cat_id := "A06";
      cat_name := "Vulnerable and Outdated Components";
      cat_description := "Unpatched or outdated software components with known vulnerabilities.";
      cat_priority := "High";
      cat_checks := ["outdated_dependencies"; "known_cve_versions"; "vulnerable_libraries"; "missing_patches"] |});
  ("A07_AUTHENTICATION_FAILURES",
   {| cat_id := "A07";
      cat_name := "Authentication Failures";
      cat_description := "Issues in login flows, weak password policies, or session handling that lead to unauthorized access.";
      cat_priority := "High";
      cat_checks := ["weak_authentication"; "weak_password_policy"; "session_fixation"; "missing_mfa"; "broken_authentication"; "credential_exposure"] |});
  ("A08_DATA_INTEGRITY_FAILURES",
   {| cat_id := "A08";
      cat_name := "Software or Data Integrity Failures";
      cat_description := "Flaws where code or data can be modified or tampered with, often in update mechanisms or pipelines.";
      cat_priority := "High";
      cat_checks := ["insecure_deserialization"; "unsigned_updates"; "missing_signatures"; "unsafe_deployment"; "code_tampering"] |});
  ("A09_LOGGING_MONITORING_FAILURES",
   {| cat_id := "A09";
      cat_name := "Logging and Monitoring Failures";
      cat_description := "Insufficient logging and monitoring to detect security incidents.";
      cat_priority := "Medium";
      cat_checks := ["missing_logging"; "insufficient_monitoring"; "inadequate_alerting"; "log_tampering"; "no_audit_trail"] |});
  ("A10_EXCEPTIONAL_CONDITIONS",
   {| cat_id := "A10";
      cat_name := "Mishandling of Exceptional Conditions";
      cat_description := "New for 2025, focused on unsafe error handling and system resilience when failures occur.";
      cat_priority := "Medium";
      cat_checks := ["unsafe_error_handling"; "sensitive_info_in_errors"; "unhandled_exceptions"; "poor_error_recovery"; "resource_exhaustion"] |})
].

Definition CIS_CATEGORIES : list (string * CategoryDef) := [
  ("CIS_APP_SOFTWARE_SECURITY",
   {| cat_id := "CIS-AS";
      cat_name := "Application Software Security";
      cat_description := "Ensures web apps follow secure coding practices, including input validation enforcement, secure API design and dependency vulnerability scanning.";
      cat_priority := "High";
      cat_checks := ["input_validation"; "secure_api_design"; "dependency_scanning"; "secure_code_practices"; "buffer_overflow_prevention"; "format_string_prevention"] |});
  ("CIS_ACCESS_CONTROL_MANAGEMENT",
   {| cat_id := "CIS-AC";
      cat_name := "Access Control Management";
      cat_description := "Enforces role-based authorization, least privilege, session timeouts and protections against privilege escalation via endpoints.";
      cat_priority := "High";
      cat_checks := ["role_based_access"; "least_privilege"; "session_timeout"; "privilege_escalation_protection"; "endpoint_authorization"; "resource_access_controls"] |})
].

Definition NIST_CATEGORIES : list (string * CategoryDef) := [
  ("NIST_IA",
   {| cat_id := "NIST-IA";
      cat_name := "Identification and Authentication (IA)";
      cat_description := "Validates authentication strength, password rules, MFA enforcement, session security.";
      cat_priority := "High";
      cat_checks := ["user_identification"; "authentication_strength"; "password_requirements"; "mfa_enforcement"; "session_security"; "failed_login_attempts"; "password_expiration"; "account_lockout"] |});
  ("NIST_AC",
   {| cat_id := "NIST-AC";
      cat_name := "Access Control (AC)";
      cat_description := "Manages authorization, permissions, roles, and access enforcement.";
      cat_priority := "High";
      cat_checks := ["access_control_policy"; "least_privilege_enforcement"; "role_based_access"; "separation_of_duties"; "access_enforcement"; "boundary_protection"] |});
  ("NIST_AU",
   {| cat_id := "NIST-AU";
      cat_name := "Audit and Accountability (AU)";
      cat_description := "Logging, monitoring, and audit trail management.";
      cat_priority := "Medium";
      cat_checks := ["audit_logging"; "log_protection"; "log_retention"; "audit_review"; "accountability"; "tamper_detection"] |});
  ("NIST_SI",
   {| cat_id := "NIST-SI";
      cat_name := "System and Information Integrity (SI)";
      cat_description := "Malware protection, security updates, and system monitoring.";
      cat_priority := "High";
      cat_checks := ["malware_protection"; "security_updates"; "system_monitoring"; "information_integrity"; "flaw_remediation"; "security_testing"] |});
  ("NIST_SC",
   {| cat_id := "NIST-SC";
      cat_name := "System and Communications Protection (SC)";
      cat_description := "Cryptography, encryption, and secure communications.";
      cat_priority := "High";
      cat_checks := ["encryption_in_transit"; "encryption_at_rest"; "key_management"; "cryptographic_controls"; "secure_protocols"; "boundary_protection"] |})
].

Inductive FrameworkType : Type := OWASP | CIS | NIST.

(** [FrameworkType(value)]: the member with that value, else [ValueError]. *)
Definition FrameworkType_of (value : string) : Py.result FrameworkType :=
  if String.eqb value "OWASP" then Py.Ok OWASP
  else if String.eqb value "CIS" then Py.Ok CIS
  else if String.eqb value "NIST" then Py.Ok NIST
  else Py.Raise (Py.ValueError "not a valid FrameworkType").

Definition FRAMEWORK_MAPPINGS (t : FrameworkType) : list (string * CategoryDef) :=
  match t with
  | OWASP => OWASP_CATEGORIES
  | CIS => CIS_CATEGORIES
  | NIST => NIST_CATEGORIES
  end.

Definition get_categories_for_framework (framework_name : string)
  : list (string * CategoryDef) :=
  match FrameworkType_of (Py.upper framework_name) with
  | Py.Ok framework_type => FRAMEWORK_MAPPINGS framework_type
  | Py.Raise _ => []
  end.

Definition map_scanner_finding_to_categories
    (framework_name finding_type severity : string) : list string :=
  let categories := get_categories_for_framework framework_name in
  fold_left
    (fun matching_categories kv =>
       if Py.list_in finding_type (cat_checks (snd kv))
       then matching_categories ++ [cat_id (snd kv)]
       else matching_categories)
    categories [].

(** ** Findings *)

(** A raw finding as a scanner adapter emits it: a [dict] whose entries are
    read with [.get]; an absent key is [None]. *)
Record Finding : Type := {
  f_type : option string;
  f_rule_id : option string;
  f_message : option string;
  f_severity : option string;
  f_file : option string;
  f_line : option Z
}.

(** An entry of a category's list in the categorized-findings map. *)
Record CategorizedFinding : Type := {
  c_tool : string;
  c_finding : Finding;
  c_severity : string;
  c_file : option string;
  c_line : option Z
}.

(** An ordered [dict] with string keys: [d[k] = v] replaces the value of an
    existing key in place and appends a new key at the end. *)
Fixpoint dict_set {V : Type} (k : string) (v : V) (d : list (string * V))
  : list (string * V) :=
  match d with
  | [] => [(k, v)]
  | (k', v') :: d' =>
      if String.eqb k' k then (k, v) :: d' else (k', v') :: dict_set k v d'
  end.

Fixpoint dict_get {V : Type} (k : string) (d : list (string * V)) : option V :=
  match d with
  | [] => None
  | (k', v') :: d' => if String.eqb k' k then Some v' else dict_get k d'
  end.

Definition dict_keys {V : Type} (d : list (string * V)) : list string :=
  map fst d.

(** ** Finding classifier ([category_checker.py], lines 26-165) *)

Module CategoryCheckRunner.

(** Bandit test ID mapping to check types. *)
Definition test_mappings : list (string * string) := [
  ("hardcoded_password", "hardcoded_secrets");
  ("hardcoded_sql_string", "sql_injection");
  ("hardcoded_temp_file", "insecure_defaults");
  ("assert_used", "security_misconfiguration");
  ("exec_used", "code_injection");
  ("eval_used", "code_injection");
  ("subprocess", "os_command_injection");
  ("start_process_with_a_shell", "os_command_injection");
  ("start_process_with_partial_path", "os_command_injection");
  ("suspicious_non_cryptographic_random_usage", "weak_encryption");
  ("use_of_input_instead_of_raw_input", "input_validation");
  ("import_telnetlib", "insecure_protocols");
  ("try_except_pass", "unsafe_error_handling");
  ("except_pass", "unsafe_error_handling");
  ("bad_file_permissions", "insecure_defaults");
  ("flask_debug_true", "debug_mode_enabled");
  ("insecure_hash_function", "weak_encryption");
  ("insecure_random_function", "weak_encryption");
  ("paramiko_calls", "weak_encryption");
  ("request_with_no_cert_validation", "insecure_protocols");
  ("use_of_mako_templates", "template_injection");
  ("jinja2_autoescape_false", "template_injection")
].

(** The canonical check identifier [_map_bandit_to_categories] computes. *)
Definition bandit_check_type (finding : Finding) : string :=
  let issue_type := Py.lower (Py.get (f_type finding) "") in
  Py.get (dict_get issue_type test_mappings) issue_type.

Definition _map_bandit_to_categories
    (framework_name : string) (finding : Finding) : list string :=
  let severity := Py.lower (Py.get (f_severity finding) "") in
  let check_type := bandit_check_type finding in
  map_scanner_finding_to_categories framework_name check_type severity.

(** The canonical check identifier [_map_semgrep_to_categories] computes:
    the chain of [if any(x in rule_id for x in [...])] tests. *)
Definition semgrep_check_type (finding : Finding) : string :=
  let rule_id := Py.lower (Py.get (f_rule_id finding) "") in
  let message := Py.lower (Py.get (f_message finding) "") in
  if Py.any_in ["sql"; "injection"] rule_id then "sql_injection"
  else if Py.any_in ["auth"; "password"; "credential"] rule_id then "weak_authentication"
  else if Py.any_in ["crypto"; "encrypt"; "hash"] rule_id then "weak_encryption"
  else if Py.any_in ["access"; "control"; "permission"] rule_id then "access_control_bypass"
  else if Py.any_in ["xxe"; "xml"; "parse"] rule_id then "injection"
  else if Py.any_in ["xss"; "script"; "html"] rule_id then "injection"
  else if Py.any_in ["command"; "exec"; "os"] rule_id then "os_command_injection"
  else if Py.any_in ["error"; "exception"; "logging"] rule_id then "unsafe_error_handling"
  else if Py.any_in ["default"; "config"; "setting"] rule_id then "insecure_defaults"
  else rule_id.

Definition _map_semgrep_to_categories
    (framework_name : string) (finding : Finding) : list string :=
  let severity := Py.lower (Py.get (f_severity finding) "") in
  let check_type := semgrep_check_type finding in
  map_scanner_finding_to_categories framework_name check_type severity.

(** The entry appended for a finding of [tool]. *)
Definition entry_of (tool : string) (finding : Finding) : CategorizedFinding :=
  {| c_tool := tool;
     c_finding := finding;
     c_severity := Py.upper (Py.get (f_severity finding) "unknown");
     c_file := f_file finding;
     c_line := f_line finding |}.

(** [if category_id not in categorized: categorized[category_id] = []]
    then [categorized[category_id].append(entry)]. *)
Definition append_to (entry : CategorizedFinding)
    (categorized : gmap string (list CategorizedFinding)) (category_id : string)
  : gmap string (list CategorizedFinding) :=
  <[category_id := default [] (categorized !! category_id) ++ [entry]]> categorized.

(** One of the two [for finding in findings.get(tool, [])] loops. *)
Definition process_tool (tool : string)
    (mapper : string -> Finding -> list string) (framework_name : string)
    (findings : gmap string (list Finding))
    (categorized : gmap string (list CategorizedFinding))
  : gmap string (list CategorizedFinding) :=
  fold_left
    (fun categorized finding =>
       fold_left (append_to (entry_of tool finding))
                 (mapper framework_name finding) categorized)
    (default [] (findings !! tool)) categorized.

Definition categorize_findings (framework_name : string)
    (findings : gmap string (list Finding))
  : gmap string (list CategorizedFinding) :=
  let categorized := ∅ in
  let categorized :=
    process_tool "bandit" _map_bandit_to_categories framework_name findings categorized in
  let categorized :=
    process_tool "semgrep" _map_semgrep_to_categories framework_name findings categorized in
  categorized.

(** ** Category scorer ([category_checker.py], lines 167-267) *)

(** The value stored per category id by [calculate_category_scores] and
    read back by [calculate_overall_score], which reads [priority] and
    [score] with [.get]: these two may be absent. *)
Record ScoreData : Type := {
  sd_category : string;
  sd_score : option Q;
  sd_total_issues : nat;
  sd_critical : nat;
  sd_high : nat;
  sd_medium : nat;
  sd_low : nat;
  sd_priority : option string
}.

(** [len([f for f in findings if f["severity"] == sev])]. *)
Definition severity_count (sev : string) (findings : list CategorizedFinding) : nat :=
  length (List.filter (fun f => String.eqb (c_severity f) sev) findings).

Definition nat_to_float (n : nat) : Q := inject_Z (Z.of_nat n).

(** The body of the loop of [calculate_category_scores] (lines 196-228):
    the score entry of one category. *)
Definition score_category (category_def : CategoryDef)
    (categorized_findings : gmap string (list CategorizedFinding)) : ScoreData :=
  let findings := default [] (categorized_findings !! cat_id category_def) in
  let critical := severity_count "CRITICAL" findings in
  let high := severity_count "HIGH" findings in
  let medium := severity_count "MEDIUM" findings in
  let low := severity_count "LOW" findings in
  let total_issues := (critical + high + medium + low)%nat in
  let score := 100%Q in
  let score := (score - nat_to_float (critical * 25))%Q in
  let score := (score - nat_to_float (high * 15))%Q in
  let score := (score - nat_to_float (medium * 8))%Q in
  let score := (score - nat_to_float (low * 3))%Q in
  let score := Py.max 0%Q (Py.min 100%Q score) in
  {| sd_category := cat_name category_def;
     sd_score := Some (Py.round2 score);
     sd_total_issues := total_issues;
     sd_critical := critical;
     sd_high := high;
     sd_medium := medium;
     sd_low := low;
     sd_priority := Some (cat_priority category_def) |}.

Definition calculate_category_scores (framework_name : string)
    (categorized_findings : gmap string (list CategorizedFinding))
  : list (string * ScoreData) :=
  let categories := get_categories_for_framework framework_name in
  fold_left
    (fun category_scores kv =>
       dict_set (cat_id (snd kv)) (score_category (snd kv) categorized_findings)
                category_scores)
    categories [].

Definition priority_weights : list (string * Q) := [
  ("High", 50 # 100);
  ("Medium", 35 # 100);
  ("Low", 15 # 100)
]%Q.

(** The weight and the score read from one entry (lines 256-258). *)
Definition entry_weight (score_data : ScoreData) : Q :=
  let priority := Py.get (sd_priority score_data) "Medium" in
  Py.get (dict_get priority priority_weights) (35 # 100)%Q.

Definition entry_score (score_data : ScoreData) : Q :=
  Py.get (sd_score score_data) 0%Q.

(** The accumulation loop (lines 252-261): [(weighted_sum, total_weight)]. *)
Definition accumulate (category_scores : list (string * ScoreData)) : Q * Q :=
  fold_left
    (fun acc kv =>
       let weight := entry_weight (snd kv) in
       let score := entry_score (snd kv) in
       (fst acc + score * weight, snd acc + weight)%Q)
    category_scores (0%Q, 0%Q).

Definition calculate_overall_score (category_scores : list (string * ScoreData))
  : Py.result Q :=
  let '(weighted_sum, total_weight) := accumulate category_scores in
  if Qeq_bool total_weight 0%Q then Py.Ok 100%Q
  else
    overall_score ← Py.truediv weighted_sum total_weight;
    Py.Ok (Py.round2 overall_score).

End CategoryCheckRunner.

(** ** The overall score in binary64 ([category_checker.py], lines 232-267)

    [calculate_overall_score] once more, on Python's own numbers: a
    [float] is an IEEE 754 binary64 value and every operation on floats
    rounds to the nearest value, ties to even. *)

Module Binary64.

(** The rational [m * 2^e]. *)
Definition magnitude (m : positive) (e : Z) : Q :=
  match e with
  | Zneg p => Qmake (Zpos m) (2 ^ p)
  | _ => inject_Z (Zpos m * 2 ^ e)
  end.

(** The rational a float stands for; the infinities and NaN stand for
    none. *)
Definition exact (x : float) : option Q :=
  match Prim2SF x with
  | S754_zero _ => Some 0%Q
  | S754_finite s m e => Some (if s then - magnitude m e else magnitude m e)%Q
  | S754_infinity _ | S754_nan => None
  end.

(** A number as a score field holds it: an [int] or a [float]. *)
Inductive number : Type :=
| Int (z : Z)
| Float (x : float).

(** The conversion of an [int] operand of a float operation: the nearest
    float, ties to even, and OverflowError when that is beyond the largest
    finite float. *)
Definition of_int (z : Z) : Py.result float :=
  match binary_normalize prec emax z 0 false with
  | S754_infinity _ => Py.Raise (Py.OverflowError "int too large to convert to float")
  | x => Py.Ok (SF2Prim x)
  end.

(** [score * weight] for a float [weight]. *)
Definition times (score : number) (weight : float) : Py.result float :=
  match score with
  | Float x => Py.Ok (x * weight)%float
  | Int z => x ← of_int z; Py.Ok (x * weight)%float
  end.

(** [x / y] on floats. *)
Definition truediv (x y : float) : Py.result float :=
  if (y =? 0)%float then Py.Raise Py.ZeroDivisionError else Py.Ok (x / y)%float.

(** The float nearest to the decimal [n / 100], with sign [s]. *)
Definition hundredths (s : bool) (n : Z) : float :=
  match n with
  | Zpos p => SF2Prim (SFdiv prec emax (S754_finite s p 0) (S754_finite false 100 0))
  | _ => if s then neg_zero else zero
  end.

(** [round(x, 2)]: the exact value of a finite [x] is rounded to two
    decimal places, ties to even, and the decimal obtained is converted
    back to the nearest float; an infinity or NaN rounds to itself. *)
Definition round2 (x : float) : float :=
  match Prim2SF x with
  | S754_finite s m e => hundredths s (Py.round_half_even (magnitude m e * 100))
  | S754_zero _ | S754_infinity _ | S754_nan => x
  end.

(** What [calculate_overall_score] reads of an entry of the map: the
    fields [priority] and [score], either of which may be absent. *)
Record Entry : Type := {
  e_priority : option string;
  e_score : option number
}.

Definition priority_weights : list (string * float) := [
  ("High", 0.50);
  ("Medium", 0.35);
  ("Low", 0.15)
]%float.

(** The loop (lines 255-261), from the given values of [weighted_sum] and
    [total_weight]. *)
Fixpoint accumulate (items : list (string * Entry))
    (weighted_sum total_weight : float) : Py.result (float * float) :=
  match items with
  | [] => Py.Ok (weighted_sum, total_weight)
  | (category_id, score_data) :: items' =>
      let priority := Py.get (e_priority score_data) "Medium" in
      let weight := Py.get (dict_get priority priority_weights) 0.35%float in
      let score := Py.get (e_score score_data) (Int 0) in
      product ← times score weight;
      accumulate items' (weighted_sum + product)%float (total_weight + weight)%float
  end.

Definition calculate_overall_score (category_scores : list (string * Entry))
  : Py.result float :=
  sums ← accumulate category_scores 0%float 0%float;
  let '(weighted_sum, total_weight) := sums in
  if (total_weight =? 0)%float then Py.Ok 100%float
  else
    overall_score ← truediv weighted_sum total_weight;
    Py.Ok (round2 overall_score).

End Binary64.

(** ** Persistent store ([db/postgres/models.py], [alembic/versions/001_initial.py]) *)

(** The result document of one analysis type.  It is stored in a JSON
    column and the merge step never looks inside it. *)
Inductive Blob : Type := Json (doc : string).

(** A row of [scan_results]. *)
Record ScanResult : Type := {
  scan_id : string;
  framework_id : Z;
  repository_url : string;
  branch : string;
  scan_date : Z;
  status : string;
  findings : option (gmap string Blob);
  compliance_score : Q;
  raw_output : option (gmap string Blob)
}.

Definition with_status (st : string) (r : ScanResult) : ScanResult :=
  {| scan_id := scan_id r; framework_id := framework_id r;
     repository_url := repository_url r; branch := branch r;
     scan_date := scan_date r; status := st; findings := findings r;
     compliance_score := compliance_score r; raw_output := raw_output r |}.

Definition with_results (fs ro : option (gmap string Blob)) (r : ScanResult)
  : ScanResult :=
  {| scan_id := scan_id r; framework_id := framework_id r;
     repository_url := repository_url r; branch := branch r;
     scan_date := scan_date r; status := status r; findings := fs;
     compliance_score := compliance_score r; raw_output := ro |}.

Definition with_findings (fs : option (gmap string Blob)) (r : ScanResult)
  : ScanResult :=
  with_results fs (raw_output r) r.

(** The stored state: the primary keys of [frameworks] and the rows of
    [scan_results], which [UniqueConstraint('scan_id')] keys by scan id. *)
Record Database : Type := {
  frameworks : gset Z;
  scan_results : gmap string ScanResult
}.

Module Session.

(** [db.add(row); db.commit()]: the INSERT is checked against
    [ForeignKeyConstraint(['framework_id'], ['frameworks.id'])] and
    [UniqueConstraint('scan_id')]; a violation raises and stores nothing. *)
Definition add_commit (db : Database) (row : ScanResult) : Py.result Database :=
  if negb (bool_decide (framework_id row ∈ frameworks db)) then
    Py.Raise (Py.IntegrityError "scan_results_framework_id_fkey")
  else if bool_decide (is_Some (scan_results db !! scan_id row)) then
    Py.Raise (Py.IntegrityError "scan_results_scan_id_key")
  else
    Py.Ok {| frameworks := frameworks db;
             scan_results := <[scan_id row := row]> (scan_results db) |}.

(** [db.query(ScanResult).filter(ScanResult.scan_id == scan_id).first()]. *)
Definition query_first (db : Database) (sid : string) : option ScanResult :=
  scan_results db !! sid.

(** [row.status = st; db.commit()]. *)
Definition commit_status (db : Database) (sid st : string) : Database :=
  {| frameworks := frameworks db;
     scan_results := alter (with_status st) sid (scan_results db) |}.

(** The row object of a session between the query that loaded it and the
    commit.  [findings] and [raw_output] are plain [Column(JSON)]
    (models.py, lines 111 and 113), without mutation tracking: at the
    commit the unit of work writes such a column only when the attribute
    was assigned a value that differs from the one it held.  A change made
    in place to the loaded dict is not seen, and assigning the loaded dict
    back to its attribute is no change, the old and the new value being
    one and the same object.  [attributes] is what the object reads as;
    [findings_replaced] tells whether [findings] was assigned a dict other
    than the loaded one. *)
Record Object : Type := {
  attributes : ScanResult;
  findings_replaced : bool
}.

(** [db.commit()] on the row object loaded by the query for [sid]: an
    UPDATE of the [findings] column when the attribute was replaced, and
    no statement at all otherwise.  [raw_output] is only ever changed in
    place, so it is never written. *)
Definition commit_results (db : Database) (sid : string) (obj : Object)
  : Database :=
  if findings_replaced obj then
    {| frameworks := frameworks db;
       scan_results :=
         alter (with_findings (findings (attributes obj))) sid (scan_results db) |}
  else db.

End Session.

(** ** Task queue ([workers/celery_app.py]) *)

Record Task : Type := {
  task_name : string;
  task_args : list string;
  task_priority : Z;
  task_queue : string
}.

(** ** Scan orchestrator ([services/scanning/orchestrator.py]) *)

Module ScanOrchestrator.
Section WithBroker.

(** Whether the broker accepts a task; [send_task] raises otherwise. *)
Variable accepts : Task -> bool.

Definition send_task (t : Task) (queue : list Task) : Py.result (list Task) :=
  if accepts t then Py.Ok (queue ++ [t])
  else Py.Raise (Py.BrokerError (task_name t)).

(** The body of the [try] block up to the status update: the sends run
    in order and the first failure leaves the earlier tasks queued. *)
Fixpoint send_all (ts : list Task) (queue : list Task)
  : list Task * Py.result unit :=
  match ts with
  | [] => (queue, Py.Ok tt)
  | t :: ts' =>
      match send_task t queue with
      | Py.Ok queue' => send_all ts' queue'
      | Py.Raise e => (queue, Py.Raise e)
      end
  end.

Definition scan_tasks (sid repository_url branch : string)
    (scan_types : list string) (priority : Z) : list Task :=
  (if Py.list_in "sast" scan_types then
     [{| task_name := "src.workers.sast_worker.run_sast_scan";
         task_args := [sid; repository_url; branch];
         task_priority := priority; task_queue := "sast" |}]
   else []) ++
  (if Py.list_in "dast" scan_types then
     [{| task_name := "src.workers.dast_worker.run_dast_scan";
         task_args := [sid; repository_url];
         task_priority := priority; task_queue := "dast" |}]
   else []) ++
  (if Py.list_in "sca" scan_types then
     [{| task_name := "src.workers.sca_worker.run_sca_scan";
         task_args := [sid; repository_url; branch];
         task_priority := priority; task_queue := "sca" |}]
   else []).

(** [initiate_scan]: [uuid4] and [utcnow] are the values drawn from
    [uuid.uuid4()] and [datetime.utcnow()].  Returns the stored state,
    the queue and the scan id or the exception raised. *)
Definition initiate_scan (uuid4 : string) (utcnow : Z)
    (db : Database) (queue : list Task)
    (repository_url branch : string) (framework_id : Z)
    (scan_types : list string) (priority : Z)
  : Database * list Task * Py.result string :=
  let sid := uuid4 in
  let scan_result :=
    {| scan_id := sid; framework_id := framework_id;
       repository_url := repository_url; branch := branch;
       scan_date := utcnow; status := "pending"; findings := Some ∅;
       compliance_score := 0%Q; raw_output := Some ∅ |} in
  match Session.add_commit db scan_result with
  | Py.Raise e => (db, queue, Py.Raise e)
  | Py.Ok db =>
      match send_all (scan_tasks sid repository_url branch scan_types priority)
                     queue with
      | (queue, Py.Ok _) =>
          (Session.commit_status db sid "in_progress", queue, Py.Ok sid)
      | (queue, Py.Raise e) =>
          (Session.commit_status db sid "failed", queue, Py.Raise e)
      end
  end.

End WithBroker.

(** [f"Scan {scan_id} not found"]. *)
Definition not_found (sid : string) : string :=
  String.append "Scan " (String.append sid " not found").

(** The fields [get_scan_status] returns. *)
Record ScanStatus : Type := {
  st_scan_id : string;
  st_status : string;
  st_findings : option (gmap string Blob);
  st_compliance_score : Q;
  st_scan_date : Z;
  st_repository_url : string;
  st_branch : string
}.

Definition get_scan_status (db : Database) (sid : string) : Py.result ScanStatus :=
  match Session.query_first db sid with
  | None => Py.Raise (Py.ValueError (not_found sid))
  | Some scan_result =>
      Py.Ok {| st_scan_id := sid; st_status := status scan_result;
               st_findings := findings scan_result;
               st_compliance_score := compliance_score scan_result;
               st_scan_date := scan_date scan_result;
               st_repository_url := repository_url scan_result;
               st_branch := branch scan_result |}
  end.

End ScanOrchestrator.

(** ** Workers ([workers/sast_worker.py], [workers/dast_worker.py]) *)

Module Workers.

(** Whether [findings or {}] evaluates to a new dict: the column is NULL
    or holds the empty dict. *)
Definition falsy (fs : option (gmap string Blob)) : bool :=
  bool_decide (default ∅ fs = ∅).

(** The assignments between the query and the commit
    (sast lines 123-129, dast lines 52-55) on the loaded row.
    [current_findings] is [findings or {}]: the loaded dict itself unless
    that is NULL or empty.  It gets the worker's key in place and is
    assigned to [findings], which replaces the attribute's value only when
    [current_findings] is a new dict.  The item assignment on [raw_output]
    changes the loaded dict in place and raises when the column is NULL. *)
Definition assign_results (key : string) (results raw : Blob)
    (scan_result : ScanResult) : Py.result Session.Object :=
  let replaced := falsy (findings scan_result) in
  let current_findings := default ∅ (findings scan_result) in
  let current_findings := <[key := results]> current_findings in
  match raw_output scan_result with
  | None =>
      Py.Raise (Py.TypeError "'NoneType' object does not support item assignment")
  | Some ro =>
      Py.Ok {| Session.attributes :=
                 with_results (Some current_findings) (Some (<[key := raw]> ro))
                              scan_result;
               Session.findings_replaced := replaced |}
  end.

(** "Update scan results in database": query, assign, commit. *)
Definition merge (key : string) (db : Database) (sid : string)
    (results raw : Blob) : Database * Py.result unit :=
  match Session.query_first db sid with
  | None => (db, Py.Ok tt)
  | Some scan_result =>
      match assign_results key results raw scan_result with
      | Py.Raise e => (db, Py.Raise e)
      | Py.Ok obj => (Session.commit_results db sid obj, Py.Ok tt)
      end
  end.

(** [run_sast_scan]; [scan] is the outcome of lines 44-115 (rules,
    scanners, mapping): the combined results and the raw output, or the
    exception one of these calls raised. *)
Definition run_sast_scan (scan : Py.result (Blob * Blob))
    (db : Database) (sid : string) : Database * Py.result Blob :=
  match Session.query_first db sid with
  | None => (db, Py.Raise (Py.ValueError (ScanOrchestrator.not_found sid)))
  | Some _ =>
      match scan with
      | Py.Raise e => (db, Py.Raise e)
      | Py.Ok (combined_results, raw) =>
          match merge "sast" db sid combined_results raw with
          | (db, Py.Ok _) => (db, Py.Ok combined_results)
          | (db, Py.Raise e) => (db, Py.Raise e)
          end
      end
  end.

(** [run_dast_scan]; [scan] is the outcome of lines 34-44. *)
Definition run_dast_scan (scan : Py.result (Blob * Blob))
    (db : Database) (sid : string) : Database * Py.result Blob :=
  match scan with
  | Py.Raise e => (db, Py.Raise e)
  | Py.Ok (processed_results, raw) =>
      match merge "dast" db sid processed_results raw with
      | (db, Py.Ok _) => (db, Py.Ok processed_results)
      | (db, Py.Raise e) => (db, Py.Raise e)
      end
  end.

(** *** Workers running side by side

    Each worker has a database session of its own.  Its merge touches
    the store twice: the query loads the row into the session, the
    commit writes back what the session sees as changed.  A schedule is
    an interleaving of these events; nothing in the workers locks the row
    or checks a version between the two. *)
Record Worker : Type := {
  w_key : string;
  w_results : Blob;
  w_raw : Blob
}.

Inductive event : Type :=
| Query (w : Worker)
| Commit (w : Worker).

(** The store, and the row each session holds, by worker key. *)
Definition state : Type := (Database * gmap string ScanResult)%type.

Definition step (sid : string) (st : state) (ev : event) : state :=
  let '(db, sessions) := st in
  match ev with
  | Query w =>
      match Session.query_first db sid with
      | Some row => (db, <[w_key w := row]> sessions)
      | None => (db, delete (w_key w) sessions)
      end
  | Commit w =>
      match sessions !! w_key w with
      | Some row =>
          match assign_results (w_key w) (w_results w) (w_raw w) row with
          | Py.Ok obj => (Session.commit_results db sid obj, sessions)
          | Py.Raise _ => (db, sessions)
          end
      | None => (db, sessions)
      end
  end.

Definition run (sid : string) (schedule : list event) (db : Database) : state :=
  fold_left (step sid) schedule (db, ∅).

End Workers.

Import CategoryCheckRunner.

(** ** Reference definitions used in the statements *)

(** [clamp x lo hi] on integers. *)
Definition clamp (x lo hi : Z) : Z := Z.max lo (Z.min hi x).

(** The number of findings of a list that carry severity [sev]. *)
Fixpoint count_severity (sev : string) (l : list CategorizedFinding) : Z :=
  match l with
  | [] => 0
  | f :: l' =>
      ((if decide (c_severity f = sev) then 1 else 0) + count_severity sev l')%Z
  end.

(** The findings recorded for a category. *)
Definition findings_of (category_def : CategoryDef)
    (categorized_findings : gmap string (list CategorizedFinding))
  : list CategorizedFinding :=
  default [] (categorized_findings !! cat_id category_def).

(** The score of an entry equals [q]. *)
Definition score_is (score_data : ScoreData) (q : Q) : Prop :=
  match sd_score score_data with
  | Some x => x == q
  | None => False
  end.

(** The weight of a priority tier: High 0.50, Medium 0.35, Low 0.15; an
    absent or unrecognised tier weighs as Medium. *)
Definition tier_weight (priority : option string) : Q :=
  match priority with
  | Some p =>
      if decide (p = "High") then 0.50
      else if decide (p = "Low") then 0.15
      else 0.35
  | None => 0.35
  end%Q.

Definition Qsum (l : list Q) : Q := fold_right Qplus 0%Q l.

(** The weighted mean of the scores of the entries present in the map,
    normalised by the sum of their weights. *)
Definition weighted_mean (category_scores : list (string * ScoreData)) : Q :=
  (Qsum (map (fun kv => entry_score (snd kv) * tier_weight (sd_priority (snd kv)))%Q
             category_scores)
   / Qsum (map (fun kv => tier_weight (sd_priority (snd kv))) category_scores))%Q.


(** The category definitions of a framework, in the order of its table. *)
Definition framework_categories (t : FrameworkType) : list CategoryDef :=
  map snd (FRAMEWORK_MAPPINGS t).

Definition category_ids (t : FrameworkType) : list string :=
  map cat_id (framework_categories t).

(** A bandit finding of the given issue type, at severity critical. *)
Definition critical_bandit_finding (issue_type : string)
    (rule_id message file : option string) (line : option Z) : Finding :=
  {| f_type := Some issue_type; f_rule_id := rule_id; f_message := message;
     f_severity := Some "critical"; f_file := file; f_line := line |}.

(** Scores of the OWASP categories when bandit reports the one finding. *)
Definition owasp_scores (finding : Finding) : list (string * ScoreData) :=
  calculate_category_scores "OWASP"
    (categorize_findings "OWASP" {["bandit" := [finding]]}).

(** The entry [OWASP_CATEGORIES["A03_INJECTION"]]. *)
Definition A03_INJECTION : CategoryDef :=
  Eval cbv in
    match dict_get "A03_INJECTION" OWASP_CATEGORIES with
    | Some category_def => category_def
    | None => Build_CategoryDef "" "" "" "" []
    end.

(** Every keyword the semgrep mapping tests for. *)
Definition semgrep_keywords : list string :=
  ["sql"; "injection"; "auth"; "password"; "credential"; "crypto"; "encrypt";
   "hash"; "access"; "control"; "permission"; "xxe"; "xml"; "parse"; "xss";
   "script"; "html"; "command"; "exec"; "os"; "error"; "exception"; "logging";
   "default"; "config"; "setting"].

(** The keyword sets of the semgrep mapping, each with the check type it
    selects, in the order in which they are tested. *)
Definition semgrep_rules : list (list string * string) := [
  (["sql"; "injection"], "sql_injection");
  (["auth"; "password"; "credential"], "weak_authentication");
  (["crypto"; "encrypt"; "hash"], "weak_encryption");
  (["access"; "control"; "permission"], "access_control_bypass");
  (["xxe"; "xml"; "parse"], "injection");
  (["xss"; "script"; "html"], "injection");
  (["command"; "exec"; "os"], "os_command_injection");
  (["error"; "exception"; "logging"], "unsafe_error_handling");
  (["default"; "config"; "setting"], "insecure_defaults")
].

(** The check type of the first rule, in the order of the list, one of
    whose keywords occurs in [rule_id]. *)
Fixpoint first_rule (rules : list (list string * string)) (rule_id : string)
  : option string :=
  match rules with
  | [] => None
  | (keywords, check_type) :: rules' =>
      if Py.any_in keywords rule_id then Some check_type
      else first_rule rules' rule_id
  end.

(** The check types the keyword tests can produce. *)
Definition semgrep_check_types : list string :=
  ["sql_injection"; "weak_authentication"; "weak_encryption";
   "access_control_bypass"; "injection"; "os_command_injection";
   "unsafe_error_handling"; "insecure_defaults"].

Definition bandit_issue_type (finding : Finding) : string :=
  Py.lower (Py.get (f_type finding) "").

Definition semgrep_rule_id (finding : Finding) : string :=
  Py.lower (Py.get (f_rule_id finding) "").

Definition accept_all (t : Task) : bool := true.

Definition empty_store : Database := {| frameworks := {[1%Z]}; scan_results := ∅ |}.

(** The store after [initiate_scan] for framework 1 with the given
    analysis types, the broker accepting every task. *)
Definition initiated (scan_types : list string) : Database * list Task * Py.result string :=
  ScanOrchestrator.initiate_scan accept_all "scan-1" 0 empty_store []
    "https://example.org/repo.git" "main" 1 scan_types 5.

Definition sast_output : Py.result (Blob * Blob) :=
  Py.Ok (Json "{total_issues: 1}", Json "{bandit: null, semgrep: null}").

Definition dast_output : Py.result (Blob * Blob) :=
  Py.Ok (Json "{total_issues: 2}", Json "null").

Definition sast_worker : Workers.Worker :=
  {| Workers.w_key := "sast"; Workers.w_results := Json "{total_issues: 1}";
     Workers.w_raw := Json "{bandit: null, semgrep: null}" |}.

Definition dast_worker : Workers.Worker :=
  {| Workers.w_key := "dast"; Workers.w_results := Json "{total_issues: 2}";
     Workers.w_raw := Json "null" |}.

(** Findings whose identifiers no table and no keyword knows. *)
Definition unmapped_bandit_finding : Finding :=
  {| f_type := Some "Blacklist_Call"; f_rule_id := None; f_message := None;
     f_severity := Some "low"; f_file := None; f_line := None |}.

Definition unmapped_semgrep_finding : Finding :=
  {| f_type := None; f_rule_id := Some "Python.Lang.Rule-7"; f_message := None;
     f_severity := Some "low"; f_file := None; f_line := None |}.

(** A semgrep finding whose rule id holds keywords of two sets, html of
    the sixth and exec of the seventh. *)
Definition two_keyword_finding : Finding :=
  {| f_type := None; f_rule_id := Some "Python.Exec-HTML"; f_message := None;
     f_severity := Some "low"; f_file := None; f_line := None |}.

(** ** Further functions of the registry ([framework_categories.py]) *)

(** The value of a member of the [FrameworkType] enumeration. *)
Definition FrameworkType_value (t : FrameworkType) : string :=
  match t with
  | OWASP => "OWASP"
  | CIS => "CIS"
  | NIST => "NIST"
  end.

Definition get_all_framework_names : list string :=
  map FrameworkType_value [OWASP; CIS; NIST].

(** [next((cat for cat in categories.values() if cat.id == category_id), None)]. *)
Definition get_category (framework_name category_id : string) : option CategoryDef :=
  let categories := get_categories_for_framework framework_name in
  List.find (fun cat => String.eqb (cat_id cat) category_id) (map snd categories).

Definition get_checks_for_category (framework_name category_id : string)
  : list string :=
  match get_category framework_name category_id with
  | Some category => cat_checks category
  | None => []
  end.

(** ** Recommendations ([category_checker.py], lines 269-344) *)

(** The guidance chosen for a category with findings (lines 294-340); the
    tests are on the framework name as given and on the key of the
    category in its table. *)
Definition category_guidance (framework_name category_id : string)
    (category_def : CategoryDef) : list string :=
  let recs :=
    if Py.str_in "OWASP" framework_name then
      if Py.str_in "A01" category_id then
        ["Implement role-based access control (RBAC) throughout the application";
         "Enforce principle of least privilege for all users and service accounts";
         "Regularly audit and test access controls"]
      else if Py.str_in "A02" category_id then
        ["Use strong, up-to-date encryption standards (TLS 1.3+, AES-256)";
         "Implement secure key management practices";
         "Never hardcode secrets or credentials in code"]
      else if Py.str_in "A03" category_id then
        ["Use parameterized queries and prepared statements";
         "Implement input validation and sanitization";
         "Apply principle of least privilege to database accounts"]
      else if Py.str_in "A07" category_id then
        ["Enforce strong password policies with complexity requirements";
         "Implement multi-factor authentication (MFA)";
         "Use secure session management with timeouts"]
      else []
    else if Py.str_in "CIS" framework_name then
      if Py.str_in "AC" category_id then
        ["Implement and enforce role-based access control (RBAC)";
         "Configure session timeouts and re-authentication";
         "Log and monitor all access attempts"]
      else if Py.str_in "AS" category_id then
        ["Conduct regular security code reviews";
         "Implement static and dynamic security testing";
         "Scan for vulnerable dependencies regularly"]
      else []
    else if Py.str_in "NIST" framework_name then
      if Py.str_in "IA" category_id then
        ["Strengthen authentication mechanisms with MFA or equivalent";
         "Enforce password complexity and expiration policies";
         "Implement account lockout after failed attempts"]
      else if Py.str_in "AC" category_id then
        ["Establish and enforce access control policy";
         "Implement least privilege for all accounts";
         "Review and audit access controls periodically"]
      else if Py.str_in "SI" category_id then
        ["Keep systems and software up to date with security patches";
         "Implement endpoint protection and malware scanning";
         "Monitor systems for security anomalies"]
      else []
    else [] in
  match recs with
  | [] => [String.append "Review "
             (String.append (cat_name category_def)
                            " requirements and address findings")]
  | _ :: _ => recs
  end.

(** The list stored for one category by the loop (lines 288-342). *)
Definition category_recommendations (framework_name : string)
    (categorized_findings : gmap string (list CategorizedFinding))
    (category_id : string) (category_def : CategoryDef) : list string :=
  match default [] (categorized_findings !! cat_id category_def) with
  | [] => ["No issues found in this category."]
  | _ :: _ => category_guidance framework_name category_id category_def
  end.

Definition get_category_recommendations (framework_name : string)
    (categorized_findings : gmap string (list CategorizedFinding))
  : list (string * list string) :=
  let categories := get_categories_for_framework framework_name in
  fold_left
    (fun recommendations kv =>
       dict_set (cat_id (snd kv))
                (category_recommendations framework_name categorized_findings
                                          (fst kv) (snd kv))
                recommendations)
    categories [].

(** ** The SCA worker ([workers/sca_worker.py]) *)

(** [run_sca_scan]; [scan] is the outcome of lines 35-53. *)
Definition run_sca_scan (scan : Py.result (Blob * Blob))
    (db : Database) (sid : string) : Database * Py.result Blob :=
  match scan with
  | Py.Raise e => (db, Py.Raise e)
  | Py.Ok (processed_results, raw) =>
      match Workers.merge "sca" db sid processed_results raw with
      | (db, Py.Ok _) => (db, Py.Ok processed_results)
      | (db, Py.Raise e) => (db, Py.Raise e)
      end
  end.


(** ** Aggregation ([services/scanning/orchestrator.py], lines 132-173) *)

Definition with_compliance_score (score : Q) (r : ScanResult) : ScanResult :=
  {| scan_id := scan_id r; framework_id := framework_id r;
     repository_url := repository_url r; branch := branch r;
     scan_date := scan_date r; status := status r; findings := findings r;
     compliance_score := score; raw_output := raw_output r |}.

Module Aggregation.
Section WithItems.

(** What [scan_result.findings.items()] yields, each stored document read
    as the list of findings that iterating over it gives, or the
    exception Python raises when the column or a document does not
    iterate that way. *)
Variable items : option (gmap string Blob) -> Py.result (list (string * list Finding)).

Definition severity_weights : list (string * Q) := [
  ("critical", 1.0);
  ("high", 0.8);
  ("medium", 0.5);
  ("low", 0.2)
]%Q.

(** The weight added for one finding (lines 160-161). *)
Definition finding_weight (finding : Finding) : Q :=
  let severity := Py.lower (Py.get (f_severity finding) "low") in
  Py.get (dict_get severity severity_weights) 0.1%Q.

(** The two nested loops (lines 158-163): [(weighted_score, max_score)]. *)
Definition tally (its : list (string * list Finding)) : Q * Z :=
  fold_left
    (fun acc kv =>
       fold_left
         (fun acc finding =>
            ((fst acc + finding_weight finding)%Q, (snd acc + 1)%Z))
         (snd kv) acc)
    its (0%Q, 0%Z).

(** Lines 165-170: the score written to the record. *)
Definition compliance_of (its : list (string * list Finding)) : Q :=
  let '(weighted_score, max_score) := tally its in
  let compliance_score :=
    if (0 <? max_score)%Z
    then (100 * (1 - weighted_score / inject_Z max_score))%Q
    else 100%Q in
  Py.round2 compliance_score.

Definition aggregate_results (db : Database) (sid : string)
  : Database * Py.result unit :=
  match Session.query_first db sid with
  | None => (db, Py.Ok tt)
  | Some scan_result =>
      if negb (String.eqb (status scan_result) "complete") then (db, Py.Ok tt)
      else
        match items (findings scan_result) with
        | Py.Raise e => (db, Py.Raise e)
        | Py.Ok its =>
            ({| frameworks := frameworks db;
                scan_results :=
                  alter (with_compliance_score (compliance_of its)) sid
                        (scan_results db) |},
             Py.Ok tt)
        end
  end.

End WithItems.
End Aggregation.

(** ** The results endpoint ([api/v1/endpoints/scanning.py], lines 82-114) *)

Module Endpoints.

(** [HTTPException(status_code, detail)]. *)
Inductive HTTPException : Type :=
| HTTP (status_code : Z) (detail : string).

(** The body [get_scan_results] returns. *)
Record ScanResults : Type := {
  rs_scan_id : string;
  rs_findings : option (gmap string Blob);
  rs_compliance_score : Q;
  rs_scan_date : Z;
  rs_repository_url : string;
  rs_branch : string
}.

Definition get_scan_results (db : Database) (sid : string)
  : ScanResults + HTTPException :=
  match Session.query_first db sid with
  | None => inr (HTTP 404 "Scan not found")
  | Some scan_result =>
      if negb (String.eqb (status scan_result) "complete") then
        inr (HTTP 400 (String.append "Scan is not complete. Current status: "
                                     (status scan_result)))
      else
        inl {| rs_scan_id := sid;
               rs_findings := findings scan_result;
               rs_compliance_score := compliance_score scan_result;
               rs_scan_date := scan_date scan_result;
               rs_repository_url := repository_url scan_result;
               rs_branch := branch scan_result |}
  end.

End Endpoints.

(** ** Predicates used in the further properties *)

(** No category of a categorized-findings map holds an empty list. *)
Definition filled (cat : gmap string (list CategorizedFinding)) : Prop :=
  forall (k : string) (l : list CategorizedFinding), cat !! k = Some l -> l <> [].

(** ** Sample data of the further properties *)


(** A store whose one record has NULL in its raw output column. *)
Definition null_raw_store : Database :=
  {| frameworks := {[1%Z]};
     scan_results :=
       {["scan-1" :=
           {| scan_id := "scan-1"; framework_id := 1; repository_url := "";
              branch := "main"; scan_date := 0; status := "in_progress";
              findings := Some ∅; compliance_score := 0%Q; raw_output := None |}]} |}.

Definition sql_finding : Finding :=
  critical_bandit_finding "hardcoded_sql_string" None None None None.

Definition semgrep_sql_finding : Finding :=
  {| f_type := None; f_rule_id := Some "python.sql-injection"; f_message := None;
     f_severity := Some "ERROR"; f_file := None; f_line := None |}.


(** ** Reference definitions for the overall score in binary64 *)

(** The priority tiers and their weights. *)
Inductive Tier : Type := High | Medium | Low.

Definition tier_name (t : Tier) : string :=
  match t with
  | High => "High"
  | Medium => "Medium"
  | Low => "Low"
  end.

Definition tier_weight64 (t : Tier) : float :=
  match t with
  | High => 0.50
  | Medium => 0.35
  | Low => 0.15
  end%float.

(** The sums [S] of score times weight and [W] of the weights of a list
    of scored tiers, each taken from the left starting at 0.0, and the
    overall score they give: [S / W] rounded to two places, and 100 when
    [W] is 0. *)
Definition weighted_sum64 (entries : list (float * Tier)) : float :=
  fold_left (fun acc e => (acc + fst e * tier_weight64 (snd e))%float) entries 0%float.

Definition total_weight64 (entries : list (float * Tier)) : float :=
  fold_left (fun acc e => (acc + tier_weight64 (snd e))%float) entries 0%float.

Definition overall64 (entries : list (float * Tier)) : float :=
  if (total_weight64 entries =? 0)%float then 100%float
  else Binary64.round2 (weighted_sum64 entries / total_weight64 entries)%float.

(** The float a score field stands for. *)
Definition score_reads (score : Binary64.number) (x : float) : Prop :=
  match score with
  | Binary64.Float y => y = x
  | Binary64.Int z => Binary64.of_int z = Py.Ok x
  end.

(** A well-formed entry: its priority names the tier and its score is the
    number given. *)
Definition reads_as (kv : string * Binary64.Entry) (e : float * Tier) : Prop :=
  Binary64.e_priority (snd kv) = Some (tier_name (snd e))
  /\ exists score : Binary64.number,
       Binary64.e_score (snd kv) = Some score /\ score_reads score (fst e).

(** Any entry, read with the defaults: tier Medium for an absent or
    unrecognised priority, score 0.0 for an absent score. *)
Definition tier_or_medium (priority : option string) : Tier :=
  match priority with
  | Some p =>
      if decide (p = "High") then High
      else if decide (p = "Low") then Low
      else Medium
  | None => Medium
  end.

Definition score_or_zero (score : option Binary64.number) : Py.result float :=
  match score with
  | None => Py.Ok 0%float
  | Some (Binary64.Float x) => Py.Ok x
  | Some (Binary64.Int z) => Binary64.of_int z
  end.

Fixpoint read_with_defaults (cs : list (string * Binary64.Entry))
  : Py.result (list (float * Tier)) :=
  match cs with
  | [] => Py.Ok []
  | kv :: cs' =>
      x ← score_or_zero (Binary64.e_score (snd kv));
      entries ← read_with_defaults cs';
      Py.Ok ((x, tier_or_medium (Binary64.e_priority (snd kv))) :: entries)
  end.



(** The float [x] stands for the rational [q]. *)
Definition represents (x : float) (q : Q) : Prop :=
  match Binary64.exact x with
  | Some v => v == q
  | None => False
  end.

Definition int_entry (score : Z) (priority : string) : Binary64.Entry :=
  {| Binary64.e_priority := Some priority;
     Binary64.e_score := Some (Binary64.Int score) |}.



(** ** Arithmetic over the rationals *)

Lemma lt_inject (x y : Z) : Py.lt (inject_Z x) (inject_Z y) = (x <? y)%Z.
Proof.
  unfold Py.lt, Qcompare, Z.ltb; simpl. rewrite !Z.mul_1_r. reflexivity.
Qed.

#[global] Instance lt_proper : Proper (Qeq ==> Qeq ==> eq) Py.lt.
Proof. intros a b Hab c d Hcd. unfold Py.lt. now rewrite Hab, Hcd. Qed.

Lemma min_inject (a b : Q) (x y : Z) :
  a == inject_Z x -> b == inject_Z y -> Py.min a b == inject_Z (Z.min x y).
Proof.
  intros Ha Hb. unfold Py.min. rewrite Ha, Hb, lt_inject.
  destruct (Z.ltb_spec y x).
  - rewrite Z.min_r by lia. exact Hb.
  - rewrite Z.min_l by lia. exact Ha.
Qed.

Lemma max_inject (a b : Q) (x y : Z) :
  a == inject_Z x -> b == inject_Z y -> Py.max a b == inject_Z (Z.max x y).
Proof.
  intros Ha Hb. unfold Py.max. rewrite Ha, Hb, lt_inject.
  destruct (Z.ltb_spec x y).
  - rewrite Z.max_r by lia. exact Hb.
  - rewrite Z.max_l by lia. exact Ha.
Qed.

#[global] Instance round_half_even_proper : Proper (Qeq ==> eq) Py.round_half_even.
Proof.
  intros a b Hab. unfold Py.round_half_even.
  rewrite (Qfloor_comp _ _ Hab).
  assert (E : a - inject_Z (Qfloor b) == b - inject_Z (Qfloor b))
    by now rewrite Hab.
  now rewrite (Qcompare_comp _ _ E _ _ (Qeq_refl (1 # 2))).
Qed.

#[global] Instance round2_proper : Proper (Qeq ==> eq) Py.round2.
Proof.
  intros a b Hab. unfold Py.round2.
  assert (E : a * 100 == b * 100) by now rewrite Hab.
  now rewrite (round_half_even_proper _ _ E).
Qed.

Lemma round_half_even_inject (z : Z) : Py.round_half_even (inject_Z z) = z.
Proof.
  unfold Py.round_half_even. rewrite Qfloor_Z.
  assert (E : inject_Z z - inject_Z z == 0) by ring.
  now rewrite (Qcompare_comp _ _ E _ _ (Qeq_refl (1 # 2))).
Qed.

(** Rounding an integer to two decimals gives the integer back. *)
Lemma round2_inject (q : Q) (z : Z) : q == inject_Z z -> Py.round2 q == inject_Z z.
Proof.
  intros Hq. unfold Py.round2.
  assert (E : q * 100 == inject_Z (z * 100)).
  { rewrite Hq, inject_Z_mult. reflexivity. }
  rewrite (round_half_even_proper _ _ E), round_half_even_inject.
  unfold Qeq; simpl. lia.
Qed.

(** ** Category scores *)

Lemma severity_count_spec (sev : string) (l : list CategorizedFinding) :
  Z.of_nat (severity_count sev l) = count_severity sev l.
Proof.
  unfold severity_count. induction l as [|f l IH]; simpl; [reflexivity|].
  destruct (String.eqb_spec (c_severity f) sev) as [E|E];
    destruct (decide (c_severity f = sev)); try contradiction; simpl length; lia.
Qed.

Lemma nat_to_float_mul (n k : nat) :
  nat_to_float (n * k) == inject_Z (Z.of_nat n * Z.of_nat k).
Proof. unfold nat_to_float. now rewrite Nat2Z.inj_mul. Qed.

(** The deduction arithmetic of [score_category] stays in the integers. *)
Lemma deduction_inject (c h m l : nat) :
  100 - nat_to_float (c * 25) - nat_to_float (h * 15)
      - nat_to_float (m * 8) - nat_to_float (l * 3)
  == inject_Z (100 - 25 * Z.of_nat c - 15 * Z.of_nat h
                   - 8 * Z.of_nat m - 3 * Z.of_nat l).
Proof.
  rewrite !nat_to_float_mul.
  unfold Qminus. rewrite <- !inject_Z_opp.
  change 100%Q with (inject_Z 100).
  rewrite <- !inject_Z_plus.
  apply inject_Z_injective. simpl Z.of_nat. lia.
Qed.

Lemma score_category_score (cd : CategoryDef)
    (cf : gmap string (list CategorizedFinding)) :
  let fs := findings_of cd cf in
  score_is (score_category cd cf)
    (inject_Z (clamp (100 - 25 * count_severity "CRITICAL" fs
                          - 15 * count_severity "HIGH" fs
                          - 8 * count_severity "MEDIUM" fs
                          - 3 * count_severity "LOW" fs) 0 100)).
Proof.
  intros fs. unfold score_is, score_category; simpl sd_score.
  fold (findings_of cd cf). fold fs.
  apply round2_inject. unfold clamp.
  apply (max_inject 0 _ 0); [reflexivity|].
  apply (min_inject 100 _ 100); [reflexivity|].
  rewrite deduction_inject, !severity_count_spec. reflexivity.
Qed.

Lemma score_category_total (cd : CategoryDef)
    (cf : gmap string (list CategorizedFinding)) :
  let fs := findings_of cd cf in
  Z.of_nat (sd_total_issues (score_category cd cf))
  = (count_severity "CRITICAL" fs + count_severity "HIGH" fs
     + count_severity "MEDIUM" fs + count_severity "LOW" fs)%Z.
Proof.
  intros fs. unfold score_category; simpl sd_total_issues.
  fold (findings_of cd cf). fold fs.
  rewrite !Nat2Z.inj_add, !severity_count_spec. reflexivity.
Qed.

(** A category without findings scores 100 and reports no issue. *)
Lemma score_category_empty (cd : CategoryDef)
    (cf : gmap string (list CategorizedFinding)) :
  findings_of cd cf = [] ->
  score_is (score_category cd cf) 100
  /\ sd_total_issues (score_category cd cf) = 0%nat.
Proof.
  intros Hfs.
  pose proof (score_category_score cd cf) as Hs.
  pose proof (score_category_total cd cf) as Ht.
  cbv zeta in Hs, Ht. rewrite Hfs in Hs, Ht.
  split; [exact Hs | cbn [count_severity] in Ht; lia].
Qed.

(** C2: for every category and findings map, [score_category] returns
    clamp(100 - 25*critical - 15*high - 8*medium - 3*low, 0, 100), the
    four numbers being the counts of the category's findings with that
    severity (which the entry also reports); a category with zero findings
    scores exactly 100 with [total_issues] equal to 0. *)
Theorem C2_score_category_deduction (cd : CategoryDef)
    (cf : gmap string (list CategorizedFinding)) :
  let fs := findings_of cd cf in
  let critical := count_severity "CRITICAL" fs in
  let high := count_severity "HIGH" fs in
  let medium := count_severity "MEDIUM" fs in
  let low := count_severity "LOW" fs in
  score_is (score_category cd cf)
    (inject_Z (clamp (100 - 25 * critical - 15 * high - 8 * medium - 3 * low) 0 100))
  /\ Z.of_nat (sd_critical (score_category cd cf)) = critical
  /\ Z.of_nat (sd_high (score_category cd cf)) = high
  /\ Z.of_nat (sd_medium (score_category cd cf)) = medium
  /\ Z.of_nat (sd_low (score_category cd cf)) = low
  /\ (fs = [] ->
      score_is (score_category cd cf) 100
      /\ sd_total_issues (score_category cd cf) = 0%nat).
Proof.
  intros fs critical high medium low.
  split; [apply score_category_score|].
  do 4 (split; [apply severity_count_spec|]).
  apply score_category_empty.
Qed.

Lemma severity_count_app (sev : string) (l1 l2 : list CategorizedFinding) :
  severity_count sev (l1 ++ l2) = (severity_count sev l1 + severity_count sev l2)%nat.
Proof. unfold severity_count. now rewrite List.filter_app, length_app. Qed.

Lemma severity_count_skip (sev : string) (e : CategorizedFinding)
    (l1 l2 : list CategorizedFinding) :
  String.eqb (c_severity e) sev = false ->
  severity_count sev (l1 ++ e :: l2) = severity_count sev (l1 ++ l2).
Proof.
  intros He. rewrite !severity_count_app. f_equal.
  unfold severity_count; simpl. now rewrite He.
Qed.

(** Each finding is counted under at most one severity. *)
Lemma counts_le_length (l : list CategorizedFinding) :
  (count_severity "CRITICAL" l + count_severity "HIGH" l
   + count_severity "MEDIUM" l + count_severity "LOW" l
   + count_severity "UNKNOWN" l <= Z.of_nat (length l))%Z.
Proof.
  induction l as [|f l IH]; [simpl; lia|].
  cbn [count_severity length]. rewrite Nat2Z.inj_succ.
  repeat destruct (decide _); try lia; congruence.
Qed.

(** C4 (amended): a finding with severity UNKNOWN, wherever it stands in a
    category's list, changes nothing in the entry [score_category]
    returns: it contributes 0 to the deduction and is not counted in
    [total_issues], which is the sum critical + high + medium + low and
    so leaves the UNKNOWN findings out of the number of findings. *)
Theorem C4_unknown_severity_left_out (cd : CategoryDef)
    (cf : gmap string (list CategorizedFinding))
    (tool : string) (fnd : Finding) (file : option string) (line : option Z) :
  let e := {| c_tool := tool; c_finding := fnd; c_severity := "UNKNOWN";
              c_file := file; c_line := line |} in
  let fs := findings_of cd cf in
  (forall l1 l2 : list CategorizedFinding,
      score_category cd (<[cat_id cd := l1 ++ e :: l2]> cf)
      = score_category cd (<[cat_id cd := l1 ++ l2]> cf))
  /\ Z.of_nat (sd_total_issues (score_category cd cf))
     = (count_severity "CRITICAL" fs + count_severity "HIGH" fs
        + count_severity "MEDIUM" fs + count_severity "LOW" fs)%Z
  /\ (Z.of_nat (sd_total_issues (score_category cd cf))
      + count_severity "UNKNOWN" fs <= Z.of_nat (length fs))%Z.
Proof.
  intros e fs. split; [|split].
  - intros l1 l2. unfold score_category.
    rewrite !lookup_insert_eq. cbn [default].
    now rewrite !(severity_count_skip _ e l1 l2) by reflexivity.
  - apply score_category_total.
  - rewrite score_category_total. apply counts_le_length.
Qed.

(** ** Overall score *)

Lemma entry_weight_tier (sd : ScoreData) :
  entry_weight sd = tier_weight (sd_priority sd).
Proof.
  unfold entry_weight, tier_weight. destruct (sd_priority sd) as [p|]; [|reflexivity].
  cbn [Py.get priority_weights dict_get].
  destruct (String.eqb_spec "High" p) as [<-|N1]; [reflexivity|].
  destruct (String.eqb_spec "Medium" p) as [<-|N2]; [reflexivity|].
  destruct (String.eqb_spec "Low" p) as [<-|N3]; [reflexivity|].
  repeat (destruct (decide _); [congruence|]). reflexivity.
Qed.

Lemma tier_weight_pos (p : option string) : (0 < tier_weight p)%Q.
Proof.
  unfold tier_weight. destruct p; repeat destruct (decide _); reflexivity.
Qed.

Lemma accumulate_from (cs : list (string * ScoreData)) (a b : Q) :
  let r := fold_left
             (fun acc kv =>
                let weight := entry_weight (snd kv) in
                let score := entry_score (snd kv) in
                (fst acc + score * weight, snd acc + weight)%Q) cs (a, b) in
  (fst r == a + Qsum (map (fun kv => entry_score (snd kv)
                                     * tier_weight (sd_priority (snd kv))) cs))%Q
  /\ (snd r == b + Qsum (map (fun kv => tier_weight (sd_priority (snd kv))) cs))%Q.
Proof.
  revert a b. induction cs as [|kv cs IH]; intros a b; cbn zeta.
  - simpl. split; ring.
  - cbn [fold_left map Qsum fold_right fst snd].
    destruct (IH (a + entry_score (snd kv) * entry_weight (snd kv))%Q
                 (b + entry_weight (snd kv))%Q) as [H1 H2].
    cbn zeta in H1, H2. rewrite H1, H2, entry_weight_tier.
    fold (Qsum (map (fun kv => (entry_score (snd kv)
                               * tier_weight (sd_priority (snd kv)))%Q) cs)).
    fold (Qsum (map (fun kv => tier_weight (sd_priority (snd kv))) cs)).
    split; ring.
Qed.

Lemma Qsum_weights_nonneg (cs : list (string * ScoreData)) :
  (0 <= Qsum (map (fun kv => tier_weight (sd_priority (snd kv))) cs))%Q.
Proof.
  induction cs as [|kv cs IH]; simpl; [apply Qle_refl|].
  pose proof (tier_weight_pos (sd_priority (snd kv))) as Hp.
  apply Qlt_le_weak in Hp.
  change 0%Q with (0 + 0)%Q. now apply Qplus_le_compat.
Qed.

Lemma Qsum_weights_pos (kv : string * ScoreData) (cs : list (string * ScoreData)) :
  (0 < Qsum (map (fun kv => tier_weight (sd_priority (snd kv))) (kv :: cs)))%Q.
Proof.
  simpl. pose proof (tier_weight_pos (sd_priority (snd kv))) as Hp.
  pose proof (Qsum_weights_nonneg cs) as Hn.
  change 0%Q with (0 + 0)%Q. now apply Qplus_lt_le_compat.
Qed.

Lemma accumulate_sums (cs : list (string * ScoreData)) :
  fst (accumulate cs)
  == Qsum (map (fun kv => (entry_score (snd kv)
                          * tier_weight (sd_priority (snd kv)))%Q) cs)
  /\ snd (accumulate cs)
     == Qsum (map (fun kv => tier_weight (sd_priority (snd kv))) cs).
Proof.
  destruct (accumulate_from cs 0%Q 0%Q) as [H1 H2]. cbn zeta in H1, H2.
  unfold accumulate. rewrite H1, H2. split; ring.
Qed.

(** What [calculate_overall_score] returns, in closed form. *)
Lemma calculate_overall_score_closed (cs : list (string * ScoreData)) :
  calculate_overall_score cs
  = Py.Ok (match cs with
           | [] => 100%Q
           | _ :: _ => Py.round2 (weighted_mean cs)
           end).
Proof.
  unfold calculate_overall_score.
  destruct (accumulate_sums cs) as [H1 H2].
  destruct (accumulate cs) as [ws tw]. cbn [fst snd] in H1, H2.
  destruct cs as [|kv cs].
  - simpl in H2. rewrite (proj2 (Qeq_bool_iff tw 0%Q) H2). reflexivity.
  - pose proof (Qsum_weights_pos kv cs) as Hpos. rewrite <- H2 in Hpos.
    assert (Hnz : Qeq_bool tw 0%Q = false).
    { destruct (Qeq_bool tw 0%Q) eqn:E; [|reflexivity].
      apply Qeq_bool_iff in E. rewrite E in Hpos. discriminate. }
    rewrite Hnz. unfold Py.truediv. rewrite Hnz.
    cbn [mbind result_bind Py.bind]. f_equal.
    apply round2_proper. unfold weighted_mean. now rewrite H1, H2.
Qed.

Lemma round_half_even_close (x : Q) :
  (Qabs (inject_Z (Py.round_half_even x) - x) <= 1 # 2)%Q.
Proof.
  apply Qabs_Qle_condition.
  pose proof (Qfloor_le x) as Hlo. pose proof (Qlt_floor x) as Hhi.
  rewrite inject_Z_plus in Hhi. change (inject_Z 1) with 1%Q in Hhi.
  unfold Py.round_half_even.
  destruct (Qcompare (x - inject_Z (Qfloor x)) (1 # 2)) eqn:E.
  - apply Qeq_alt in E.
    destruct (Z.even (Qfloor x));
      [|rewrite inject_Z_plus; change (inject_Z 1) with 1%Q]; split; lra.
  - apply Qlt_alt in E. split; lra.
  - apply Qgt_alt in E. rewrite inject_Z_plus.
    change (inject_Z 1) with 1%Q. split; lra.
Qed.

(** [round(x, 2)] is within half a hundredth of [x]. *)
Lemma round2_close (q : Q) : (Qabs (Py.round2 q - q) <= 1 # 200)%Q.
Proof.
  pose proof (round_half_even_close (q * 100)) as H.
  apply Qabs_Qle_condition in H. apply Qabs_Qle_condition.
  assert (E : Py.round2 q == inject_Z (Py.round_half_even (q * 100)) * (1 # 100)).
  { unfold Py.round2, Qeq. simpl. lia. }
  rewrite E. split; lra.
Qed.

(** ** The overall score in binary64 *)

Lemma weight_of_tier (priority : option string) :
  Py.get (dict_get (Py.get priority "Medium") Binary64.priority_weights) 0.35%float
  = tier_weight64 (tier_or_medium priority).
Proof.
  destruct priority as [p|]; [|reflexivity].
  cbn [Py.get Binary64.priority_weights dict_get]. unfold tier_or_medium.
  destruct (String.eqb_spec "High" p) as [<-|N1]; [reflexivity|].
  destruct (String.eqb_spec "Medium" p) as [<-|N2]; [reflexivity|].
  destruct (String.eqb_spec "Low" p) as [<-|N3]; [reflexivity|].
  repeat (destruct (decide _); [congruence|]). reflexivity.
Qed.

Lemma times_score (score : option Binary64.number) (weight : float) :
  Binary64.times (Py.get score (Binary64.Int 0)) weight
  = x ← score_or_zero score; Py.Ok (x * weight)%float.
Proof. destruct score as [[z|x]|]; reflexivity. Qed.

Lemma accumulate_reads (cs : list (string * Binary64.Entry)) (ws tw : float) :
  Binary64.accumulate cs ws tw
  = entries ← read_with_defaults cs;
    Py.Ok (fold_left (fun acc e => (acc + fst e * tier_weight64 (snd e))%float)
                     entries ws,
           fold_left (fun acc e => (acc + tier_weight64 (snd e))%float) entries tw).
Proof.
  revert ws tw. induction cs as [|[k sd] cs IH]; intros ws tw; [reflexivity|].
  cbn [Binary64.accumulate read_with_defaults snd].
  rewrite weight_of_tier, times_score.
  destruct (score_or_zero (Binary64.e_score sd)) as [x|e]; [|reflexivity].
  cbn [mbind result_bind Py.bind]. rewrite IH.
  now destruct (read_with_defaults cs).
Qed.

(** What [calculate_overall_score] returns, in closed form: the entries
    are read with the defaults and scored by [overall64]. *)
Lemma calculate_overall_score_reads (cs : list (string * Binary64.Entry)) :
  Binary64.calculate_overall_score cs
  = entries ← read_with_defaults cs; Py.Ok (overall64 entries).
Proof.
  unfold Binary64.calculate_overall_score. rewrite accumulate_reads.
  destruct (read_with_defaults cs) as [entries|e]; [|reflexivity].
  cbn [mbind result_bind Py.bind].
  unfold overall64, Binary64.truediv. fold (weighted_sum64 entries).
  fold (total_weight64 entries).
  now destruct (total_weight64 entries =? 0)%float.
Qed.

Lemma tier_or_medium_name (t : Tier) : tier_or_medium (Some (tier_name t)) = t.
Proof. now destruct t. Qed.

Lemma reads_as_defaults (cs : list (string * Binary64.Entry))
    (entries : list (float * Tier)) :
  Forall2 reads_as cs entries -> read_with_defaults cs = Py.Ok entries.
Proof.
  induction 1 as [|kv [x t] cs entries [Hp (score & Hs & Hx)] _ IH]; [reflexivity|].
  cbn [read_with_defaults fst snd] in *. rewrite Hp, Hs, IH, tier_or_medium_name.
  destruct score as [z|y]; cbn [score_reads score_or_zero] in *.
  - now rewrite Hx.
  - now subst y.
Qed.

Lemma magnitude_pos (m : positive) (e : Z) : (0 < Binary64.magnitude m e)%Q.
Proof.
  destruct e as [|p|p]; cbn [Binary64.magnitude].
  - reflexivity.
  - change 0%Q with (inject_Z 0). rewrite <- Zlt_Qlt.
    pose proof (Z.pow_pos_nonneg 2 (Z.pos p)). lia.
  - reflexivity.
Qed.

(** [round(x, 2)] of a finite [x] is the float nearest to a decimal with
    two places that lies within half a hundredth of [x]. *)
Lemma round2_nearest_hundredth (x : float) (s : bool) (m : positive) (e : Z) :
  Prim2SF x = S754_finite s m e ->
  exists n : Z,
    (0 <= n)%Z
    /\ Binary64.round2 x = Binary64.hundredths s n
    /\ (Qabs (inject_Z n * (1 # 100) - Binary64.magnitude m e) <= 1 # 200)%Q.
Proof.
  intros Hx. exists (Py.round_half_even (Binary64.magnitude m e * 100)).
  pose proof (round_half_even_close (Binary64.magnitude m e * 100)) as Hc.
  apply Qabs_Qle_condition in Hc. pose proof (magnitude_pos m e) as Hpos.
  split; [|split].
  - assert (H : (inject_Z (-1) < inject_Z (Py.round_half_even
                                             (Binary64.magnitude m e * 100)))%Q).
    { change (inject_Z (-1)) with (-1)%Q. lra. }
    rewrite <- Zlt_Qlt in H. lia.
  - unfold Binary64.round2. now rewrite Hx.
  - apply Qabs_Qle_condition. split; lra.
Qed.







(** C3 (amended): for every category-scores map whose entries carry a
    priority among High, Medium, Low and a numeric score,
    [score_overall] returns [round(S / W, 2)] computed in binary64, where
    [W] is the sum of the weights High = 0.50, Medium = 0.35, Low = 0.15
    of the categories present in the map and [S] the sum of score times
    weight, both accumulated in map order from 0.0; it returns exactly 100
    when [W] is 0, as it is for the empty map.  The rounding to two
    places takes the float nearest to a two-place decimal within 0.005 of
    the quotient.  So the value is the weighted mean up to the rounding
    of each binary64 operation and of [round], not the mean itself. *)
Theorem C3_overall_is_rounded_binary64_mean
    (cs : list (string * Binary64.Entry)) (entries : list (float * Tier)) :
  (Forall2 reads_as cs entries ->
   Binary64.calculate_overall_score cs = Py.Ok (overall64 entries))
  /\ Binary64.calculate_overall_score [] = Py.Ok 100%float
  /\ (forall (x : float) (s : bool) (m : positive) (e : Z),
         Prim2SF x = S754_finite s m e ->
         exists n : Z,
           (0 <= n)%Z
           /\ Binary64.round2 x = Binary64.hundredths s n
           /\ (Qabs (inject_Z n * (1 # 100) - Binary64.magnitude m e) <= 1 # 200)%Q).
Proof.
  split; [|split].
  - intros H. rewrite calculate_overall_score_reads.
    now rewrite (reads_as_defaults _ _ H).
  - reflexivity.
  - apply round2_nearest_hundredth.
Qed.

(** C3, counterexample.  Three entries whose weighted mean is 87.625: the
    value returned is the float 87.63, which is not that mean, and for the
    same entries in another order it is 87.62.  On the scores of the OWASP
    scenario the value returned is 97.34, the mean being 4575/47. *)
Lemma C3_counterexample :
  let cs := [("A01", int_entry 85 "High"); ("A09", int_entry 85 "Medium");
             ("A10", int_entry 94 "Medium")] in
  let reordered := [("A09", int_entry 85 "Medium"); ("A10", int_entry 94 "Medium");
                    ("A01", int_entry 85 "High")] in
  let owasp := [("A01", int_entry 100 "High"); ("A02", int_entry 100 "High");
                ("A03", int_entry 75 "High"); ("A04", int_entry 100 "High");
                ("A05", int_entry 100 "High"); ("A06", int_entry 100 "High");
                ("A07", int_entry 100 "High"); ("A08", int_entry 100 "High");
                ("A09", int_entry 100 "Medium"); ("A10", int_entry 100 "Medium")] in
  ((85 * 0.50 + 85 * 0.35 + 94 * 0.35) / (0.50 + 0.35 + 0.35) == 87.625)%Q
  /\ Binary64.calculate_overall_score cs = Py.Ok 87.63%float
  /\ ~ represents 87.63%float 87.625%Q
  /\ Binary64.calculate_overall_score reordered = Py.Ok 87.62%float
  /\ ((75 * 0.50 + 7 * (100 * 0.50) + 2 * (100 * 0.35)) / (8 * 0.50 + 2 * 0.35)
      == 4575 # 47)%Q
  /\ Binary64.calculate_overall_score owasp = Py.Ok 97.34%float
  /\ ~ represents 97.34%float (4575 # 47)%Q.
Proof.
  cbv zeta.
  split; [vm_compute; reflexivity|].
  split; [vm_compute; reflexivity|].
  split; [intros H; vm_compute in H; discriminate|].
  split; [vm_compute; reflexivity|].
  split; [vm_compute; reflexivity|].
  split; [vm_compute; reflexivity|].
  intros H. vm_compute in H. discriminate.
Qed.



(** The float primitives at values whose results are known: [round]
    works on the exact value of the float (2.675 and 1.005 lie below the
    tie, 0.125 and 87.625 on it), and the conversion of an [int] rounds to
    even and overflows from [2 ** 1024 - 2 ** 970] on. *)
Lemma binary64_examples :
  Binary64.round2 2.675 = 2.67%float
  /\ Binary64.round2 1.005 = 1.0%float
  /\ Binary64.round2 0.125 = 0.12%float
  /\ Binary64.round2 0.375 = 0.38%float
  /\ Binary64.round2 87.625 = 87.62%float
  /\ Binary64.round2 (-0.001) = neg_zero
  /\ Binary64.round2 infinity = infinity
  /\ Binary64.of_int (2 ^ 53 + 1) = Py.Ok 9007199254740992%float
  /\ Binary64.of_int (2 ^ 53 + 3) = Py.Ok 9007199254740996%float
  /\ Binary64.of_int (2 ^ 1024 - 2 ^ 970 - 1) = Py.Ok 0x1.fffffffffffffp+1023%float
  /\ Binary64.of_int (2 ^ 1024 - 2 ^ 970)
     = Py.Raise (Py.OverflowError "int too large to convert to float")
  /\ ((0.1 + 0.2)%float =? 0.3)%float = false.
Proof.
  repeat split; vm_compute; reflexivity.
Qed.

(** ** The key set of the category scores *)

Lemma get_categories_recognized (framework_name : string) (t : FrameworkType) :
  FrameworkType_of (Py.upper framework_name) = Py.Ok t ->
  get_categories_for_framework framework_name = FRAMEWORK_MAPPINGS t.
Proof. intros H. unfold get_categories_for_framework. now rewrite H. Qed.

Lemma category_ids_NoDup (t : FrameworkType) : NoDup (category_ids t).
Proof.
  destruct t; apply (bool_decide_unpack _); vm_compute; exact I.
Qed.

Lemma dict_set_fresh {V : Type} (k : string) (v : V) (d : list (string * V)) :
  k ∉ dict_keys d -> dict_set k v d = d ++ [(k, v)].
Proof.
  induction d as [|[k' v'] d IH]; intros Hk; [reflexivity|].
  cbn [dict_set]. unfold dict_keys in Hk. cbn [map fst] in Hk.
  apply not_elem_of_cons in Hk as [Hne Hk].
  destruct (String.eqb_spec k' k) as [->|_]; [contradiction|].
  cbn [app]. f_equal. now apply IH.
Qed.

Lemma fold_dict_set_fresh {V : Type} (g : CategoryDef -> V)
    (l : list (string * CategoryDef)) (acc : list (string * V)) :
  NoDup (dict_keys acc ++ map cat_id (map snd l)) ->
  fold_left (fun d kv => dict_set (cat_id (snd kv)) (g (snd kv)) d) l acc
  = acc ++ map (fun kv => (cat_id (snd kv), g (snd kv))) l.
Proof.
  revert acc. induction l as [|kv l IH]; intros acc Hnd.
  - cbn. now rewrite app_nil_r.
  - cbn [fold_left map]. cbn [map] in Hnd.
    apply NoDup_app in Hnd as (Hacc & Hdisj & Hl).
    apply NoDup_cons in Hl as [Hkv Hl].
    rewrite dict_set_fresh.
    + rewrite IH.
      * now rewrite <- app_assoc.
      * unfold dict_keys. rewrite map_app. cbn [map fst].
        apply NoDup_app. split; [|split]; [| |exact Hl].
        -- apply NoDup_app. split; [exact Hacc|]. split; [|apply NoDup_singleton].
           intros x Hx Hx'. apply list_elem_of_singleton in Hx' as ->.
           apply (Hdisj _ Hx). left.
        -- intros x Hx Hx'. apply elem_of_app in Hx as [Hx|Hx].
           ++ apply (Hdisj _ Hx). now right.
           ++ apply list_elem_of_singleton in Hx as ->. contradiction.
    + intros Hin. apply (Hdisj _ Hin). left.
Qed.

(** With ids unique in each table, the loop of
    [calculate_category_scores] lists one entry per category. *)
Lemma calculate_category_scores_map (framework_name : string) (t : FrameworkType)
    (cf : gmap string (list CategorizedFinding)) :
  FrameworkType_of (Py.upper framework_name) = Py.Ok t ->
  calculate_category_scores framework_name cf
  = map (fun cd => (cat_id cd, score_category cd cf)) (framework_categories t).
Proof.
  intros H. unfold calculate_category_scores.
  rewrite (get_categories_recognized _ _ H).
  rewrite (fold_dict_set_fresh (fun cd => score_category cd cf)).
  - cbn [app]. unfold framework_categories. now rewrite map_map.
  - cbn [dict_keys map app]. apply category_ids_NoDup.
Qed.

Lemma dict_get_map_NoDup {V : Type} (g : CategoryDef -> V)
    (cats : list CategoryDef) (cd : CategoryDef) :
  NoDup (map cat_id cats) -> cd ∈ cats ->
  dict_get (cat_id cd) (map (fun c => (cat_id c, g c)) cats) = Some (g cd).
Proof.
  induction cats as [|c cats IH]; intros Hnd Hin; [inversion Hin|].
  cbn [map] in *. apply NoDup_cons in Hnd as [Hc Hnd]. cbn [dict_get].
  apply elem_of_cons in Hin as [->|Hin].
  - now rewrite String.eqb_refl.
  - destruct (String.eqb_spec (cat_id c) (cat_id cd)) as [E|_]; [|now apply IH].
    exfalso. apply Hc. rewrite E. now apply list_elem_of_fmap_2.
Qed.

Lemma dict_get_absent {V : Type} (k : string) (d : list (string * V)) :
  k ∉ dict_keys d -> dict_get k d = None.
Proof.
  induction d as [|[k' v'] d IH]; intros Hk; [reflexivity|].
  unfold dict_keys in Hk. cbn [map fst] in Hk.
  apply not_elem_of_cons in Hk as [Hne Hk]. cbn [dict_get].
  destruct (String.eqb_spec k' k) as [->|_]; [contradiction|]. now apply IH.
Qed.

Lemma score_category_ext (cd : CategoryDef)
    (cf cf' : gmap string (list CategorizedFinding)) :
  cf' !! cat_id cd = cf !! cat_id cd -> score_category cd cf' = score_category cd cf.
Proof. intros H. unfold score_category. now rewrite H. Qed.

(** C9: for every recognized framework name, the map
    [calculate_category_scores] returns has as keys exactly the category
    ids the framework defines, each once: every category of the framework
    has its entry (scoring 100 when the category has no findings), a key
    that is not a category id of the framework is absent from the result,
    and the keys of the input that are not category ids are ignored. *)
Theorem C9_scores_keyed_by_framework_ids (framework_name : string)
    (t : FrameworkType) (cf : gmap string (list CategorizedFinding)) :
  FrameworkType_of (Py.upper framework_name) = Py.Ok t ->
  let scores := calculate_category_scores framework_name cf in
  dict_keys scores = category_ids t
  /\ NoDup (dict_keys scores)
  /\ Forall (fun cd =>
               dict_get (cat_id cd) scores = Some (score_category cd cf)
               /\ (findings_of cd cf = [] -> score_is (score_category cd cf) 100))
            (framework_categories t)
  /\ (forall k : string, k ∉ category_ids t -> dict_get k scores = None)
  /\ calculate_category_scores framework_name
       (filter (fun kv => fst kv ∈ category_ids t) cf) = scores.
Proof.
  intros H scores.
  assert (Hs : scores = map (fun cd => (cat_id cd, score_category cd cf))
                            (framework_categories t))
    by now apply calculate_category_scores_map.
  assert (Hk : dict_keys scores = category_ids t).
  { rewrite Hs. unfold dict_keys, category_ids. rewrite map_map.
    now apply map_ext. }
  split; [exact Hk|]. split; [rewrite Hk; apply category_ids_NoDup|].
  split; [|split].
  - apply Forall_forall. intros cd Hcd. split.
    + rewrite Hs. apply (dict_get_map_NoDup (fun c => score_category c cf));
        [apply category_ids_NoDup | exact Hcd].
    + intros Hfs. now apply score_category_empty.
  - intros k Hk'. apply dict_get_absent. now rewrite Hk.
  - rewrite (calculate_category_scores_map _ t _ H), Hs.
    apply map_ext_in. intros cd Hcd. f_equal.
    apply score_category_ext. rewrite map_lookup_filter.
    destruct (cf !! cat_id cd) as [fs|]; [|reflexivity].
    cbn. rewrite option_guard_True; [reflexivity|].
    cbn. unfold category_ids. apply list_elem_of_fmap_2.
    now apply list_elem_of_In.
Qed.

(** ** The OWASP scenario *)

(** C7 (amended): for the OWASP framework with a single bandit finding of
    type hardcoded_sql_string at severity critical, the finding is
    categorized into category A03 alone, with one CRITICAL entry;
    [score_category] for A03 is 75 and each of the other nine categories
    scores 100; eight OWASP categories are High priority and two (A09,
    A10) are Medium, so the overall score is
    (75*0.5 + 7*100*0.5 + 2*100*0.35) / (8*0.5 + 2*0.35) = 457.5/4.7,
    returned as 97.34. *)
Theorem C7_owasp_sql_scenario (rule_id message file : option string)
    (line : option Z) :
  let finding := critical_bandit_finding "hardcoded_sql_string" rule_id message file line in
  let categorized := categorize_findings "OWASP" {["bandit" := [finding]]} in
  categorized = {["A03" := [entry_of "bandit" finding]]}
  /\ c_severity (entry_of "bandit" finding) = "CRITICAL"
  /\ score_is (score_category A03_INJECTION categorized) 75
  /\ map (fun kv => (fst kv, sd_score (snd kv), sd_priority (snd kv)))
         (owasp_scores finding)
     = [("A01", Some 100.00%Q, Some "High"); ("A02", Some 100.00%Q, Some "High");
        ("A03", Some 75.00%Q, Some "High"); ("A04", Some 100.00%Q, Some "High");
        ("A05", Some 100.00%Q, Some "High"); ("A06", Some 100.00%Q, Some "High");
        ("A07", Some 100.00%Q, Some "High"); ("A08", Some 100.00%Q, Some "High");
        ("A09", Some 100.00%Q, Some "Medium"); ("A10", Some 100.00%Q, Some "Medium")]
  /\ (weighted_mean (owasp_scores finding) == 4575 # 47)%Q
  /\ calculate_overall_score (owasp_scores finding) = Py.Ok 97.34%Q.
Proof.
  intros finding categorized.
  split; [vm_compute; reflexivity|].
  split; [reflexivity|].
  split; [vm_compute; reflexivity|].
  split; [vm_compute; reflexivity|].
  split; vm_compute; reflexivity.
Qed.

(** C7, counterexample.  The scenario fails on the code whichever way its
    finding is written down (issue type hardcoded_sql_string, the test id
    B608, or hardcoded_sql): the overall score is never 97.5, the two
    latter findings reach no category at all, and OWASP has Medium
    categories. *)
Lemma C7_counterexample :
  let by_name := critical_bandit_finding "hardcoded_sql_string" None None None None in
  let by_test_id := critical_bandit_finding "B608" None None None None in
  let by_short_name := critical_bandit_finding "hardcoded_sql" None None None None in
  calculate_overall_score (owasp_scores by_name) = Py.Ok 97.34%Q
  /\ ~ (97.34 == 97.5)%Q
  /\ categorize_findings "OWASP" {["bandit" := [by_test_id]]} = ∅
  /\ calculate_overall_score (owasp_scores by_test_id) = Py.Ok 100.00%Q
  /\ categorize_findings "OWASP" {["bandit" := [by_short_name]]} = ∅
  /\ calculate_overall_score (owasp_scores by_short_name) = Py.Ok 100.00%Q
  /\ ~ (100.00 == 97.5)%Q
  /\ ~ Forall (fun cd => cat_priority cd = "High") (framework_categories OWASP).
Proof.
  cbv zeta.
  split; [vm_compute; reflexivity|].
  split; [intros H; vm_compute in H; discriminate|].
  split; [vm_compute; reflexivity|].
  split; [vm_compute; reflexivity|].
  split; [vm_compute; reflexivity|].
  split; [vm_compute; reflexivity|].
  split; [intros H; vm_compute in H; discriminate|].
  intros H. apply (bool_decide_pack _) in H. vm_compute in H. exact H.
Qed.

(** C4, counterexample.  A bandit finding without a severity lands in A03
    as UNKNOWN; the category then has one finding and [total_issues] is 0. *)
Lemma C4_counterexample :
  let finding :=
    {| f_type := Some "hardcoded_sql_string"; f_rule_id := None; f_message := None;
       f_severity := None; f_file := None; f_line := None |} in
  let categorized := categorize_findings "OWASP" {["bandit" := [finding]]} in
  map c_severity (findings_of A03_INJECTION categorized) = ["UNKNOWN"]
  /\ length (findings_of A03_INJECTION categorized) = 1%nat
  /\ sd_total_issues (score_category A03_INJECTION categorized) = 0%nat
  /\ sd_total_issues (score_category A03_INJECTION categorized)
     <> length (findings_of A03_INJECTION categorized).
Proof.
  cbv zeta. repeat split; try (vm_compute; reflexivity).
  vm_compute. discriminate.
Qed.

(** ** Fallbacks of the classifier *)

Lemma semgrep_no_keyword (finding : Finding) :
  Py.any_in semgrep_keywords (semgrep_rule_id finding) = false ->
  semgrep_check_type finding = semgrep_rule_id finding.
Proof.
  unfold semgrep_check_type, Py.any_in, semgrep_keywords.
  fold (semgrep_rule_id finding). generalize (semgrep_rule_id finding) as rid.
  intros rid H. cbn [existsb] in *.
  repeat (apply orb_false_elim in H as [?H H]).
  repeat match goal with Hk : Py.str_in _ rid = false |- _ => rewrite Hk; clear Hk end.
  reflexivity.
Qed.

Lemma semgrep_some_keyword (finding : Finding) :
  Py.any_in semgrep_keywords (semgrep_rule_id finding) = true ->
  semgrep_check_type finding ∈ semgrep_check_types.
Proof.
  unfold semgrep_check_type, semgrep_check_types.
  fold (semgrep_rule_id finding). generalize (semgrep_rule_id finding) as rid.
  intros rid H.
  repeat match goal with
         | |- context [if Py.any_in ?ks rid then _ else _] =>
             let E := fresh "E" in
             destruct (Py.any_in ks rid) eqn:E; [set_solver|]
         end.
  exfalso. unfold Py.any_in, semgrep_keywords in *. cbn [existsb] in *.
  repeat match goal with
         | Hk : _ || _ = false |- _ => apply orb_false_elim in Hk as [? ?]
         end.
  repeat match goal with Hk : Py.str_in _ rid = false |- _ => rewrite Hk in H; clear Hk end.
  discriminate.
Qed.

(** The chain of keyword tests is the search for the first rule that
    matches. *)
Lemma semgrep_check_type_first_rule (finding : Finding) :
  semgrep_check_type finding
  = default (semgrep_rule_id finding)
            (first_rule semgrep_rules (semgrep_rule_id finding)).
Proof.
  unfold semgrep_check_type. fold (semgrep_rule_id finding).
  generalize (semgrep_rule_id finding) as rid. intros rid.
  cbn [first_rule semgrep_rules].
  repeat match goal with
         | |- context [Py.any_in ?ks rid] =>
             destruct (Py.any_in ks rid); [reflexivity|]
         end.
  reflexivity.
Qed.

Lemma first_rule_precedence (earlier later : list (list string * string))
    (keywords : list string) (check_type rule_id : string) :
  Forall (fun rule => Py.any_in (fst rule) rule_id = false) earlier ->
  Py.any_in keywords rule_id = true ->
  first_rule (earlier ++ (keywords, check_type) :: later) rule_id = Some check_type.
Proof.
  intros Hearlier Hk. induction Hearlier as [|[ks ty] earlier Hno _ IH].
  - cbn [app first_rule]. now rewrite Hk.
  - cbn [fst] in Hno. cbn [app first_rule]. now rewrite Hno.
Qed.

Lemma first_rule_none (rules : list (list string * string)) (rule_id : string) :
  Forall (fun rule => Py.any_in (fst rule) rule_id = false) rules ->
  first_rule rules rule_id = None.
Proof.
  induction 1 as [|[ks ty] rules Hno _ IH]; [reflexivity|].
  cbn [fst] in Hno. cbn [first_rule]. now rewrite Hno.
Qed.

(** C6 (amended): a bandit finding gets as canonical identifier the value
    the lookup table holds for its lower-cased issue type, and that
    lower-cased type itself when the table has no entry for it, with no
    keyword matching.  A semgrep finding has no lookup table: the keyword
    sets are tested on its lower-cased rule id in the order of the source,
    the first set with a keyword occurring in the rule id gives the
    canonical identifier whatever the later sets hold, and only if no
    keyword of any set occurs in it the canonical identifier is the
    lower-cased rule id.  Neither mapping consults the message: the
    categories depend on the issue type (bandit) or on the rule id
    (semgrep) alone. *)
Theorem C6_classifier_fallbacks (framework_name : string) (finding : Finding) :
  (forall check_type : string,
      dict_get (bandit_issue_type finding) test_mappings = Some check_type ->
      bandit_check_type finding = check_type)
  /\ (dict_get (bandit_issue_type finding) test_mappings = None ->
      bandit_check_type finding = bandit_issue_type finding)
  /\ (forall (earlier later : list (list string * string))
             (keywords : list string) (check_type : string),
         semgrep_rules = earlier ++ (keywords, check_type) :: later ->
         Forall (fun rule => Py.any_in (fst rule) (semgrep_rule_id finding) = false)
                earlier ->
         Py.any_in keywords (semgrep_rule_id finding) = true ->
         semgrep_check_type finding = check_type)
  /\ (Forall (fun rule => Py.any_in (fst rule) (semgrep_rule_id finding) = false)
             semgrep_rules ->
      semgrep_check_type finding = semgrep_rule_id finding)
  /\ (Py.any_in semgrep_keywords (semgrep_rule_id finding) = false ->
      semgrep_check_type finding = semgrep_rule_id finding)
  /\ (Py.any_in semgrep_keywords (semgrep_rule_id finding) = true ->
      semgrep_check_type finding ∈ semgrep_check_types)
  /\ (forall other : Finding,
         f_type other = f_type finding ->
         _map_bandit_to_categories framework_name other
         = _map_bandit_to_categories framework_name finding)
  /\ (forall other : Finding,
         f_rule_id other = f_rule_id finding ->
         _map_semgrep_to_categories framework_name other
         = _map_semgrep_to_categories framework_name finding).
Proof.
  split; [|split; [|split; [|split; [|split; [|split; [|split]]]]]].
  - intros check_type H. unfold bandit_check_type. fold (bandit_issue_type finding).
    now rewrite H.
  - intros H. unfold bandit_check_type. fold (bandit_issue_type finding).
    now rewrite H.
  - intros earlier later keywords check_type Hrules Hearlier Hk.
    rewrite semgrep_check_type_first_rule, Hrules.
    now rewrite (first_rule_precedence earlier later keywords check_type _ Hearlier Hk).
  - intros H. rewrite semgrep_check_type_first_rule.
    now rewrite (first_rule_none _ _ H).
  - apply semgrep_no_keyword.
  - apply semgrep_some_keyword.
  - intros other H.
    unfold _map_bandit_to_categories, map_scanner_finding_to_categories,
      bandit_check_type. now rewrite H.
  - intros other H.
    unfold _map_semgrep_to_categories, map_scanner_finding_to_categories,
      semgrep_check_type. now rewrite H.
Qed.

(** C6, counterexample.  A bandit finding whose type is not in the table
    but contains the keywords sql and injection, and a semgrep finding
    whose message does: the first keeps its raw type and reaches no OWASP
    category, the second keeps its rule id; and an unmatched identifier is
    lower-cased, not kept verbatim. *)
Lemma C6_counterexample :
  let bandit :=
    {| f_type := Some "sql_injection_risk"; f_rule_id := None;
       f_message := Some "Possible SQL injection"; f_severity := Some "high";
       f_file := None; f_line := None |} in
  let semgrep :=
    {| f_type := None; f_rule_id := Some "Python.Flask.Rule-1017";
       f_message := Some "SQL injection through string formatting";
       f_severity := Some "high"; f_file := None; f_line := None |} in
  dict_get (bandit_issue_type bandit) test_mappings = None
  /\ Py.any_in ["sql"; "injection"] (bandit_issue_type bandit) = true
  /\ bandit_check_type bandit = "sql_injection_risk"
  /\ _map_bandit_to_categories "OWASP" bandit = []
  /\ Py.any_in ["sql"; "injection"] (Py.lower (Py.get (f_message semgrep) "")) = true
  /\ semgrep_check_type semgrep = "python.flask.rule-1017"
  /\ semgrep_check_type semgrep <> Py.get (f_rule_id semgrep) ""
  /\ _map_semgrep_to_categories "OWASP" semgrep = [].
Proof.
  cbv zeta. repeat split; try (vm_compute; reflexivity).
  vm_compute. discriminate.
Qed.

(** ** Scan initiation *)


Lemma add_commit_ok (db db' : Database) (row : ScanResult) :
  Session.add_commit db row = Py.Ok db' ->
  framework_id row ∈ frameworks db
  /\ scan_results db !! scan_id row = None
  /\ db' = {| frameworks := frameworks db;
              scan_results := <[scan_id row := row]> (scan_results db) |}.
Proof.
  unfold Session.add_commit.
  destruct (bool_decide_reflect (framework_id row ∈ frameworks db)) as [Hf|Hf];
    cbn [negb]; [|discriminate].
  destruct (bool_decide_reflect (is_Some (scan_results db !! scan_id row)))
    as [Hs|Hs]; [discriminate|].
  intros [= <-]. split; [exact Hf|]. split; [|reflexivity].
  now apply eq_None_not_Some.
Qed.


(** ** Merging the workers' results *)

(** The two events of a worker, run back to back, are its merge. *)
Lemma merge_as_events (w : Workers.Worker) (db : Database) (sid : string) :
  fst (Workers.run sid [Workers.Query w; Workers.Commit w] db)
  = fst (Workers.merge (Workers.w_key w) db sid (Workers.w_results w) (Workers.w_raw w)).
Proof.
  unfold Workers.run, Workers.merge. cbn [fold_left Workers.step].
  destruct (Session.query_first db sid) as [row|]; cbn.
  - rewrite lookup_insert_eq.
    now destruct (Workers.assign_results _ _ _ row).
  - now rewrite lookup_delete_eq.
Qed.

(** A merge writes [findings] at most: the status and the compliance
    score of every row stay as they were. *)
Lemma merge_keeps_status (key : string) (db : Database) (sid : string)
    (results raw : Blob) (k : string) :
  let db' := fst (Workers.merge key db sid results raw) in
  status <$> (scan_results db' !! k) = status <$> (scan_results db !! k)
  /\ compliance_score <$> (scan_results db' !! k)
     = compliance_score <$> (scan_results db !! k).
Proof.
  unfold Workers.merge, Session.query_first.
  destruct (scan_results db !! sid) as [row|] eqn:E; [|now split].
  destruct (Workers.assign_results key results raw row) as [[obj []]|e];
    [|now split|now split].
  cbn [fst Session.commit_results Session.findings_replaced scan_results].
  destruct (decide (sid = k)) as [<-|Hne].
  - rewrite lookup_alter_eq, E. now split.
  - rewrite lookup_alter_ne by exact Hne. now split.
Qed.

Lemma falsy_empty (fs : option (gmap string Blob)) :
  Workers.falsy fs = true -> default ∅ fs = ∅.
Proof. apply bool_decide_eq_true_1. Qed.

(** What a merge stores on a row whose raw output is not NULL: the
    findings column, holding the worker's key alone, when it was NULL or
    empty before, and nothing otherwise. *)
Lemma merge_found (key : string) (db : Database) (sid : string)
    (results raw : Blob) (row : ScanResult) (ro : gmap string Blob) :
  scan_results db !! sid = Some row -> raw_output row = Some ro ->
  Workers.merge key db sid results raw
  = (if Workers.falsy (findings row)
     then {| frameworks := frameworks db;
             scan_results :=
               <[sid := with_findings (Some {[key := results]}) row]>
                 (scan_results db) |}
     else db,
     Py.Ok tt).
Proof.
  intros Hrow Hro. unfold Workers.merge, Session.query_first, Workers.assign_results.
  rewrite Hrow, Hro. unfold Session.commit_results.
  cbn [Session.findings_replaced Session.attributes].
  destruct (Workers.falsy (findings row)) eqn:Hf; [|reflexivity].
  f_equal. f_equal. cbn [findings with_results].
  rewrite (falsy_empty _ Hf).
  apply map_eq. intros k. destruct (decide (sid = k)) as [<-|Hne].
  - now rewrite lookup_alter_eq, lookup_insert_eq, Hrow.
  - now rewrite lookup_alter_ne, lookup_insert_ne.
Qed.

(** Neither worker, whatever its scanners returned, changes the status or
    the compliance score of a row. *)
Lemma workers_keep_status (scan : Py.result (Blob * Blob)) (db : Database)
    (sid k : string) :
  status <$> (scan_results (fst (Workers.run_sast_scan scan db sid)) !! k)
  = status <$> (scan_results db !! k)
  /\ status <$> (scan_results (fst (Workers.run_dast_scan scan db sid)) !! k)
     = status <$> (scan_results db !! k).
Proof.
  unfold Workers.run_sast_scan, Workers.run_dast_scan.
  destruct scan as [[results raw]|e].
  - pose proof (merge_keeps_status "sast" db sid results raw k) as [Hs _].
    pose proof (merge_keeps_status "dast" db sid results raw k) as [Hd _].
    cbv zeta in Hs, Hd.
    destruct (Workers.merge "sast" db sid results raw) as [db1 [[]|e1]];
      destruct (Workers.merge "dast" db sid results raw) as [db2 [[]|e2]];
      destruct (Session.query_first db sid); cbn [fst] in *; now split.
  - destruct (Session.query_first db sid); now split.
Qed.

(** *** A scan with its workers, start to end *)

(** C1, the code at a failing input.  A scan asked for SAST alone: one
    task is queued, the SAST worker merges its result, the last
    outstanding one, and the record still reads in_progress with
    compliance score 0, which is what a caller polling [get_scan_status]
    sees: nothing scored the findings or moved the record to complete. *)
Lemma C1_sast_only_scan_stays_in_progress :
  let '(db1, queue, started) := initiated ["sast"] in
  let '(db2, returned) := Workers.run_sast_scan sast_output db1 "scan-1" in
  let polled := ScanOrchestrator.get_scan_status db2 "scan-1" in
  started = Py.Ok "scan-1"
  /\ map task_queue queue = ["sast"]
  /\ returned = Py.Ok (Json "{total_issues: 1}")
  /\ findings <$> (scan_results db2 !! "scan-1")
     = Some (Some {["sast" := Json "{total_issues: 1}"]})
  /\ status <$> (scan_results db2 !! "scan-1") = Some "in_progress"
  /\ status <$> (scan_results db2 !! "scan-1") <> Some "complete"
  /\ compliance_score <$> (scan_results db2 !! "scan-1") = Some 0%Q
  /\ polled
     = Py.Ok {| ScanOrchestrator.st_scan_id := "scan-1";
                ScanOrchestrator.st_status := "in_progress";
                ScanOrchestrator.st_findings :=
                  Some {["sast" := Json "{total_issues: 1}"]};
                ScanOrchestrator.st_compliance_score := 0%Q;
                ScanOrchestrator.st_scan_date := 0;
                ScanOrchestrator.st_repository_url := "https://example.org/repo.git";
                ScanOrchestrator.st_branch := "main" |}.
Proof.
  vm_compute. repeat split; discriminate.
Qed.

(** C8, the code at failing inputs.  A scan started for SAST and DAST on
    which both workers report.  Run strictly one after the other, the
    second worker sets its key in the dict its session loaded and assigns
    that same dict back, so its commit writes nothing: the record keeps
    the findings of the worker that ran first and the other's are lost, in
    either order, although both workers return normally.  When both query
    before either commits, the later commit replaces the map the earlier
    one stored: again the record holds one type's findings only.  In no
    case does the status become complete. *)
Lemma C8_merges_lose_findings :
  let db1 := fst (fst (initiated ["sast"; "dast"])) in
  let sast_then := Workers.run_sast_scan sast_output db1 "scan-1" in
  let sast_then_dast := Workers.run_dast_scan dast_output (fst sast_then) "scan-1" in
  let dast_then := Workers.run_dast_scan dast_output db1 "scan-1" in
  let dast_then_sast := Workers.run_sast_scan sast_output (fst dast_then) "scan-1" in
  let overlapping :=
    fst (Workers.run "scan-1"
           [Workers.Query sast_worker; Workers.Query dast_worker;
            Workers.Commit sast_worker; Workers.Commit dast_worker] db1) in
  findings <$> (scan_results db1 !! "scan-1") = Some (Some ∅)
  /\ snd sast_then = Py.Ok (Json "{total_issues: 1}")
  /\ snd sast_then_dast = Py.Ok (Json "{total_issues: 2}")
  /\ findings <$> (scan_results (fst sast_then_dast) !! "scan-1")
     = Some (Some {["sast" := Json "{total_issues: 1}"]})
  /\ snd dast_then = Py.Ok (Json "{total_issues: 2}")
  /\ snd dast_then_sast = Py.Ok (Json "{total_issues: 1}")
  /\ findings <$> (scan_results (fst dast_then_sast) !! "scan-1")
     = Some (Some {["dast" := Json "{total_issues: 2}"]})
  /\ findings <$> (scan_results overlapping !! "scan-1")
     = Some (Some {["dast" := Json "{total_issues: 2}"]})
  /\ Forall (fun db => status <$> (scan_results db !! "scan-1") = Some "in_progress")
            [fst sast_then_dast; fst dast_then_sast; overlapping].
Proof.
  vm_compute. repeat split; repeat constructor.
Qed.

(** ** The theorems at concrete inputs *)

(** C2 at the OWASP category A03 without findings. *)
Lemma C2_score_category_deduction_witness :
  findings_of A03_INJECTION ∅ = []
  /\ score_is (score_category A03_INJECTION ∅) 100
  /\ sd_total_issues (score_category A03_INJECTION ∅) = 0%nat.
Proof.
  split; [reflexivity|].
  apply (C2_score_category_deduction A03_INJECTION ∅). reflexivity.
Defined.

(** C3 at three well-formed entries. *)
Lemma C3_overall_is_rounded_binary64_mean_witness :
  let cs := [("A01", int_entry 85 "High"); ("A09", int_entry 85 "Medium");
             ("A10", int_entry 94 "Medium")] in
  let entries := [(85, High); (85, Medium); (94, Medium)]%float in
  Forall2 reads_as cs entries
  /\ Binary64.calculate_overall_score cs = Py.Ok (overall64 entries)
  /\ overall64 entries = 87.63%float
  /\ Prim2SF 87.625 = S754_finite false 6166061208567808 (-46)
  /\ exists n : Z,
       (0 <= n)%Z
       /\ Binary64.round2 87.625 = Binary64.hundredths false n
       /\ (Qabs (inject_Z n * (1 # 100) - Binary64.magnitude 6166061208567808 (-46))
           <= 1 # 200)%Q.
Proof.
  cbv zeta.
  assert (H : Forall2 reads_as
                [("A01", int_entry 85 "High"); ("A09", int_entry 85 "Medium");
                 ("A10", int_entry 94 "Medium")]
                [(85, High); (85, Medium); (94, Medium)]%float).
  { repeat constructor; eexists; (split; [reflexivity|vm_compute; reflexivity]). }
  split; [exact H|].
  split; [now apply C3_overall_is_rounded_binary64_mean|].
  split; [vm_compute; reflexivity|].
  assert (Hx : Prim2SF 87.625 = S754_finite false 6166061208567808 (-46))
    by (vm_compute; reflexivity).
  split; [exact Hx|].
  now apply (C3_overall_is_rounded_binary64_mean [] []).
Defined.


(** C9 at the framework name owasp, in lower case. *)
Lemma C9_scores_keyed_by_framework_ids_witness :
  FrameworkType_of (Py.upper "owasp") = Py.Ok OWASP
  /\ dict_keys (calculate_category_scores "owasp" ∅) = category_ids OWASP.
Proof.
  split; [reflexivity|].
  apply (C9_scores_keyed_by_framework_ids "owasp" OWASP ∅). reflexivity.
Defined.

(** C6 at a bandit finding whose type is in the table, at two findings
    whose identifiers nothing maps, and at a semgrep finding whose rule id
    holds keywords of the sixth and of the seventh set. *)
Lemma C6_classifier_fallbacks_witness :
  dict_get (bandit_issue_type sql_finding) test_mappings = Some "sql_injection"
  /\ bandit_check_type sql_finding = "sql_injection"
  /\ dict_get (bandit_issue_type unmapped_bandit_finding) test_mappings = None
  /\ bandit_check_type unmapped_bandit_finding = "blacklist_call"
  /\ Py.any_in semgrep_keywords (semgrep_rule_id unmapped_semgrep_finding) = false
  /\ semgrep_check_type unmapped_semgrep_finding = "python.lang.rule-7"
  /\ Py.any_in ["xss"; "script"; "html"] (semgrep_rule_id two_keyword_finding) = true
  /\ Py.any_in ["command"; "exec"; "os"] (semgrep_rule_id two_keyword_finding) = true
  /\ semgrep_check_type two_keyword_finding = "injection".
Proof.
  split; [reflexivity|].
  split; [apply (C6_classifier_fallbacks "OWASP" sql_finding); reflexivity|].
  split; [reflexivity|].
  split; [apply (C6_classifier_fallbacks "OWASP" unmapped_bandit_finding); reflexivity|].
  split; [reflexivity|].
  split; [apply (C6_classifier_fallbacks "OWASP" unmapped_semgrep_finding); reflexivity|].
  split; [reflexivity|]. split; [reflexivity|].
  pose proof (C6_classifier_fallbacks "OWASP" two_keyword_finding)
    as (_ & _ & Hrule & _).
  apply (Hrule (firstn 5 semgrep_rules) (skipn 6 semgrep_rules)
               ["xss"; "script"; "html"] "injection").
  - reflexivity.
  - repeat constructor.
  - reflexivity.
Defined.


(** ** Further properties of the scorer *)

Lemma count_severity_app (sev : string) (l1 l2 : list CategorizedFinding) :
  count_severity sev (l1 ++ l2) = (count_severity sev l1 + count_severity sev l2)%Z.
Proof. rewrite <- !severity_count_spec, severity_count_app. lia. Qed.

Lemma count_severity_nonneg (sev : string) (l : list CategorizedFinding) :
  (0 <= count_severity sev l)%Z.
Proof. rewrite <- severity_count_spec. lia. Qed.

Lemma entry_score_category (cd : CategoryDef)
    (cf : gmap string (list CategorizedFinding)) :
  let fs := findings_of cd cf in
  (entry_score (score_category cd cf)
   == inject_Z (clamp (100 - 25 * count_severity "CRITICAL" fs
                           - 15 * count_severity "HIGH" fs
                           - 8 * count_severity "MEDIUM" fs
                           - 3 * count_severity "LOW" fs) 0 100))%Q.
Proof.
  intros fs. pose proof (score_category_score cd cf) as H. cbv zeta in H.
  unfold score_is in H. unfold entry_score.
  destruct (sd_score (score_category cd cf)); [exact H | contradiction].
Qed.

Lemma entry_score_category_range (cd : CategoryDef)
    (cf : gmap string (list CategorizedFinding)) :
  (inject_Z 0 <= entry_score (score_category cd cf) <= inject_Z 100)%Q.
Proof.
  rewrite entry_score_category. unfold clamp. rewrite <- !Zle_Qle. lia.
Qed.

(** The score of a category lies between 0 and 100, and a further finding
    in the category, of whatever severity and wherever it is inserted,
    never raises it. *)
Theorem score_category_bounded_monotone (cd : CategoryDef)
    (cf : gmap string (list CategorizedFinding)) (e : CategorizedFinding)
    (l1 l2 : list CategorizedFinding) :
  (0 <= entry_score (score_category cd cf) <= 100)%Q
  /\ (entry_score (score_category cd (<[cat_id cd := l1 ++ e :: l2]> cf))
      <= entry_score (score_category cd (<[cat_id cd := l1 ++ l2]> cf)))%Q.
Proof.
  split.
  - apply entry_score_category_range.
  - rewrite !entry_score_category. unfold findings_of.
    rewrite !lookup_insert_eq. cbn [default from_option id].
    rewrite <- Zle_Qle. unfold clamp.
    rewrite !count_severity_app. cbn [count_severity].
    pose proof (count_severity_nonneg "CRITICAL" l2).
    repeat destruct (decide _); lia.
Qed.

(** Four critical findings, or seven high ones, in a category bring its
    score to 0 whatever else it holds. *)
Theorem score_category_floor (cd : CategoryDef)
    (cf : gmap string (list CategorizedFinding)) :
  (4 <= count_severity "CRITICAL" (findings_of cd cf)
   \/ 7 <= count_severity "HIGH" (findings_of cd cf))%Z ->
  (entry_score (score_category cd cf) == 0)%Q.
Proof.
  intros H. rewrite entry_score_category. unfold clamp.
  pose proof (count_severity_nonneg "CRITICAL" (findings_of cd cf)).
  pose proof (count_severity_nonneg "HIGH" (findings_of cd cf)).
  pose proof (count_severity_nonneg "MEDIUM" (findings_of cd cf)).
  pose proof (count_severity_nonneg "LOW" (findings_of cd cf)).
  change 0%Q with (inject_Z 0). apply inject_Z_injective. lia.
Qed.

(** ** Further properties of the overall score *)

Lemma round_half_even_le (x : Q) (n : Z) :
  (x <= inject_Z n)%Q -> (Py.round_half_even x <= n)%Z.
Proof.
  intros Hx. pose proof (Qfloor_le x) as Hlo.
  assert (Hf : (Qfloor x <= n)%Z).
  { rewrite Zle_Qle. lra. }
  unfold Py.round_half_even.
  assert (Hstep : (0 < x - inject_Z (Qfloor x))%Q -> (Qfloor x + 1 <= n)%Z).
  { intros Hpos. destruct (Z_lt_le_dec (Qfloor x) n) as [|Hge]; [lia|].
    rewrite Zle_Qle in Hge. lra. }
  destruct (Qcompare (x - inject_Z (Qfloor x)) (1 # 2)) eqn:E.
  - apply Qeq_alt in E. destruct (Z.even (Qfloor x)); [exact Hf|].
    apply Hstep. lra.
  - exact Hf.
  - apply Qgt_alt in E. apply Hstep. lra.
Qed.

Lemma round_half_even_ge (x : Q) (n : Z) :
  (inject_Z n <= x)%Q -> (n <= Py.round_half_even x)%Z.
Proof.
  intros Hx. assert (Hf : (n <= Qfloor x)%Z).
  { rewrite <- (Qfloor_Z n). now apply Qfloor_resp_le. }
  unfold Py.round_half_even.
  destruct (Qcompare _ _); [destruct (Z.even _)|..]; lia.
Qed.

(** [round(x, 2)] keeps a value within integer bounds. *)
Lemma round2_between (q : Q) (lo hi : Z) :
  (inject_Z lo <= q <= inject_Z hi)%Q ->
  (inject_Z lo <= Py.round2 q <= inject_Z hi)%Q.
Proof.
  intros [Hlo Hhi]. unfold Py.round2.
  assert (H1 : (lo * 100 <= Py.round_half_even (q * 100))%Z).
  { apply round_half_even_ge. rewrite inject_Z_mult.
    change (inject_Z 100) with 100%Q. lra. }
  assert (H2 : (Py.round_half_even (q * 100) <= hi * 100)%Z).
  { apply round_half_even_le. rewrite inject_Z_mult.
    change (inject_Z 100) with 100%Q. lra. }
  unfold Qle; cbn. lia.
Qed.

Lemma weighted_sums_between (cs : list (string * ScoreData)) (lo hi : Q) :
  Forall (fun kv => (lo <= entry_score (snd kv) <= hi)%Q) cs ->
  (lo * Qsum (map (fun kv => tier_weight (sd_priority (snd kv))) cs)
   <= Qsum (map (fun kv => (entry_score (snd kv)
                            * tier_weight (sd_priority (snd kv)))%Q) cs)
   <= hi * Qsum (map (fun kv => tier_weight (sd_priority (snd kv))) cs))%Q.
Proof.
  induction 1 as [|kv cs [Hlo Hhi] _ IH]; cbn [map Qsum fold_right].
  - split; lra.
  - fold (Qsum (map (fun kv => tier_weight (sd_priority (snd kv))) cs)) in *.
    fold (Qsum (map (fun kv => (entry_score (snd kv)
                                * tier_weight (sd_priority (snd kv)))%Q) cs)) in *.
    pose proof (tier_weight_pos (sd_priority (snd kv))) as Hw.
    apply Qlt_le_weak in Hw.
    pose proof (Qmult_le_compat_r _ _ _ Hlo Hw) as H1.
    pose proof (Qmult_le_compat_r _ _ _ Hhi Hw) as H2.
    destruct IH as [IH1 IH2]. split; lra.
Qed.

Lemma weighted_mean_between (cs : list (string * ScoreData)) (lo hi : Q) :
  cs <> [] ->
  Forall (fun kv => (lo <= entry_score (snd kv) <= hi)%Q) cs ->
  (lo <= weighted_mean cs <= hi)%Q.
Proof.
  intros Hne Hall. destruct (weighted_sums_between cs lo hi Hall) as [H1 H2].
  destruct cs as [|kv cs]; [contradiction|].
  pose proof (Qsum_weights_pos kv cs) as Hpos.
  unfold weighted_mean. split.
  - apply Qle_shift_div_l; assumption.
  - apply Qle_shift_div_r; assumption.
Qed.


Lemma dict_set_Forall {V : Type} (P : string * V -> Prop) (k : string) (v : V)
    (d : list (string * V)) :
  P (k, v) -> Forall P d -> Forall P (dict_set k v d).
Proof.
  intros Hv. induction 1 as [|[k' v'] d Hk' Hd IHd]; cbn [dict_set].
  - now constructor.
  - destruct (String.eqb k' k); constructor; assumption.
Qed.

Lemma calculate_category_scores_range (framework_name : string)
    (cf : gmap string (list CategorizedFinding)) :
  Forall (fun kv : string * ScoreData =>
            (inject_Z 0 <= entry_score (snd kv) <= inject_Z 100)%Q)
         (calculate_category_scores framework_name cf).
Proof.
  unfold calculate_category_scores.
  generalize (get_categories_for_framework framework_name) as l.
  assert (Hnil : Forall (fun kv : string * ScoreData =>
            (inject_Z 0 <= entry_score (snd kv) <= inject_Z 100)%Q) [])
    by constructor.
  revert Hnil. generalize (@nil (string * ScoreData)) as acc.
  intros acc Hacc l. revert acc Hacc.
  induction l as [|c l IH]; intros acc Hacc; [exact Hacc|].
  cbn [fold_left]. apply IH. apply dict_set_Forall; [|exact Hacc].
  cbn [snd]. apply entry_score_category_range.
Qed.

(** For every framework name and every categorized-findings map, the
    overall score computed from the category scores is a value between 0
    and 100. *)
Theorem pipeline_score_in_range (framework_name : string)
    (cf : gmap string (list CategorizedFinding)) :
  exists r : Q,
    calculate_overall_score (calculate_category_scores framework_name cf) = Py.Ok r
    /\ (0 <= r <= 100)%Q.
Proof.
  pose proof (calculate_category_scores_range framework_name cf) as Hall.
  destruct (calculate_category_scores framework_name cf) as [|kv cs] eqn:E.
  - exists 100%Q. split; [reflexivity | split; discriminate].
  - rewrite calculate_overall_score_closed. eexists. split; [reflexivity|].
    apply (round2_between _ 0 100).
    apply weighted_mean_between; [discriminate | exact Hall].
Qed.

Lemma weighted_mean_uniform (cs : list (string * ScoreData)) (s : Q) :
  cs <> [] ->
  Forall (fun kv => (entry_score (snd kv) == s)%Q) cs ->
  (weighted_mean cs == s)%Q.
Proof.
  intros Hne Hall.
  assert (Hb : Forall (fun kv => (s <= entry_score (snd kv) <= s)%Q) cs).
  { eapply Forall_impl; [exact Hall|]. cbn. intros x Hx. rewrite Hx. split; lra. }
  destruct (weighted_mean_between cs s s Hne Hb) as [H1 H2].
  now apply Qle_antisym.
Qed.

(** When every entry of a non-empty map has the same score, the overall
    score is that score rounded, whatever the priorities. *)
Lemma overall_score_uniform (cs : list (string * ScoreData)) (s : Q) :
  cs <> [] ->
  Forall (fun kv => (entry_score (snd kv) == s)%Q) cs ->
  calculate_overall_score cs = Py.Ok (Py.round2 s).
Proof.
  intros Hne Hall. rewrite calculate_overall_score_closed.
  destruct cs as [|kv cs]; [contradiction|]. f_equal.
  apply round2_proper. now apply weighted_mean_uniform.
Qed.

Lemma calculate_category_scores_Forall (P : string * ScoreData -> Prop)
    (framework_name : string) (cf : gmap string (list CategorizedFinding)) :
  (forall cd : CategoryDef, P (cat_id cd, score_category cd cf)) ->
  Forall P (calculate_category_scores framework_name cf).
Proof.
  intros HP. unfold calculate_category_scores.
  generalize (get_categories_for_framework framework_name) as l.
  assert (Hnil : Forall P []) by constructor.
  revert Hnil. generalize (@nil (string * ScoreData)) as acc.
  intros acc Hacc l. revert acc Hacc.
  induction l as [|c l IH]; intros acc Hacc; [exact Hacc|].
  cbn [fold_left]. apply IH. apply dict_set_Forall; [apply HP | exact Hacc].
Qed.

(** A scan without findings scores 100 overall, under every framework
    name. *)
Theorem no_findings_score_100 (framework_name : string)
    (cf : gmap string (list CategorizedFinding)) :
  (forall k : string, default [] (cf !! k) = []) ->
  exists r : Q,
    calculate_overall_score (calculate_category_scores framework_name cf) = Py.Ok r
    /\ (r == 100)%Q.
Proof.
  intros Hempty.
  assert (Hall : Forall (fun kv : string * ScoreData =>
                           (entry_score (snd kv) == 100)%Q)
                        (calculate_category_scores framework_name cf)).
  { apply calculate_category_scores_Forall. intros cd. cbn [snd].
    destruct (score_category_empty cd cf (Hempty (cat_id cd))) as [Hs _].
    unfold score_is in Hs. unfold entry_score.
    destruct (sd_score (score_category cd cf)); [exact Hs | contradiction]. }
  destruct (calculate_category_scores framework_name cf) as [|kv cs] eqn:E.
  - exists 100%Q. split; reflexivity.
  - rewrite calculate_overall_score_closed. eexists. split; [reflexivity|].
    assert (Hne : kv :: cs <> []) by discriminate.
    rewrite (round2_proper _ _ (weighted_mean_uniform _ 100 Hne Hall)).
    reflexivity.
Qed.

(** ** Further properties of the registry and the classifier *)

Lemma upper_lower_ascii (c : ascii) :
  Py.upper_ascii (Py.lower_ascii c) = Py.upper_ascii c
  /\ Py.upper_ascii (Py.upper_ascii c) = Py.upper_ascii c
  /\ Py.lower_ascii (Py.upper_ascii c) = Py.lower_ascii c
  /\ Py.lower_ascii (Py.lower_ascii c) = Py.lower_ascii c.
Proof.
  destruct c as [[] [] [] [] [] [] [] []]; repeat split; reflexivity.
Qed.

Lemma upper_lower (s : string) :
  Py.upper (Py.lower s) = Py.upper s
  /\ Py.upper (Py.upper s) = Py.upper s
  /\ Py.lower (Py.upper s) = Py.lower s
  /\ Py.lower (Py.lower s) = Py.lower s.
Proof.
  induction s as [|c s (H1 & H2 & H3 & H4)]; [repeat split|].
  destruct (upper_lower_ascii c) as (C1 & C2 & C3 & C4).
  cbn [Py.upper Py.lower]. rewrite H1, H2, H3, H4, C1, C2, C3, C4.
  repeat split.
Qed.

Lemma matching_from (cats : list (string * CategoryDef)) (ft : string)
    (acc : list string) :
  fold_left
    (fun matching_categories kv =>
       if Py.list_in ft (cat_checks (snd kv))
       then matching_categories ++ [cat_id (snd kv)]
       else matching_categories) cats acc
  = acc ++ map cat_id
             (List.filter (fun cd => Py.list_in ft (cat_checks cd)) (map snd cats)).
Proof.
  revert acc. induction cats as [|kv cats IH]; intros acc; cbn [fold_left map List.filter].
  - now rewrite app_nil_r.
  - rewrite IH. destruct (Py.list_in ft (cat_checks (snd kv))); [|reflexivity].
    cbn [map]. now rewrite <- app_assoc.
Qed.

(** The categories a finding type maps to, in closed form. *)
Lemma map_scanner_finding_closed (framework_name ft sev : string) :
  map_scanner_finding_to_categories framework_name ft sev
  = map cat_id
        (List.filter (fun cd => Py.list_in ft (cat_checks cd))
                     (map snd (get_categories_for_framework framework_name))).
Proof. unfold map_scanner_finding_to_categories. now rewrite matching_from. Qed.

Lemma registered_ids_NoDup (framework_name : string) :
  NoDup (map cat_id (map snd (get_categories_for_framework framework_name))).
Proof.
  unfold get_categories_for_framework.
  destruct (FrameworkType_of (Py.upper framework_name)) as [t|e].
  - apply (category_ids_NoDup t).
  - constructor.
Qed.

Lemma NoDup_map_filter {A B : Type} (f : A -> B) (p : A -> bool) (l : list A) :
  NoDup (map f l) -> NoDup (map f (List.filter p l)).
Proof.
  induction l as [|a l IH]; cbn [map List.filter]; [constructor|].
  intros Hnd. apply NoDup_cons in Hnd as [Ha Hnd].
  destruct (p a); [|now apply IH]. cbn [map]. apply NoDup_cons. split; [|now apply IH].
  intros Hin. apply Ha. apply list_elem_of_fmap in Hin as (x & -> & Hx).
  apply list_elem_of_In, filter_In in Hx as [Hx _].
  apply list_elem_of_fmap_2. now apply list_elem_of_In.
Qed.

Lemma map_scanner_finding_NoDup (framework_name ft sev : string) :
  NoDup (map_scanner_finding_to_categories framework_name ft sev).
Proof.
  rewrite map_scanner_finding_closed. apply NoDup_map_filter, registered_ids_NoDup.
Qed.

Lemma NoDup_map_inj {A B : Type} (f : A -> B) (l : list A) (x y : A) :
  NoDup (map f l) -> x ∈ l -> y ∈ l -> f x = f y -> x = y.
Proof.
  induction l as [|a l IH]; intros Hnd Hx Hy Hf; [inversion Hx|].
  cbn [map] in Hnd. apply NoDup_cons in Hnd as [Ha Hnd].
  apply elem_of_cons in Hx as [->|Hx]; apply elem_of_cons in Hy as [->|Hy].
  - reflexivity.
  - exfalso. apply Ha. rewrite Hf. now apply list_elem_of_fmap_2.
  - exfalso. apply Ha. rewrite <- Hf. now apply list_elem_of_fmap_2.
  - now apply IH.
Qed.

Lemma find_by_id (cats : list CategoryDef) (k : string) :
  match List.find (fun cat => String.eqb (cat_id cat) k) cats with
  | Some cd => cd ∈ cats /\ cat_id cd = k
  | None => k ∉ map cat_id cats
  end.
Proof.
  induction cats as [|c cats IH]; cbn [List.find map].
  - apply not_elem_of_nil.
  - destruct (String.eqb_spec (cat_id c) k) as [E|E].
    + split; [left | exact E].
    + destruct (List.find _ cats) as [cd|].
      * destruct IH as [Hin Hid]. split; [now right | exact Hid].
      * apply not_elem_of_cons. split; [congruence | exact IH].
Qed.

(** [get_category] finds a category by its id and returns that very
    category: for every framework name, looking up the id of one of the
    framework's categories gives the category back, and an id the
    framework does not define gives [None] and no checks. *)
Theorem get_category_round_trip (framework_name : string) :
  Forall (fun cd =>
            get_category framework_name (cat_id cd) = Some cd
            /\ get_checks_for_category framework_name (cat_id cd) = cat_checks cd)
         (map snd (get_categories_for_framework framework_name))
  /\ forall k : string,
       k ∉ map cat_id (map snd (get_categories_for_framework framework_name)) ->
       get_category framework_name k = None
       /\ get_checks_for_category framework_name k = [].
Proof.
  pose proof (registered_ids_NoDup framework_name) as Hnd.
  unfold get_checks_for_category, get_category.
  set (cats := map snd (get_categories_for_framework framework_name)) in *.
  split.
  - apply Forall_forall. intros cd Hcd.
    pose proof (find_by_id cats (cat_id cd)) as H.
    destruct (List.find _ cats) as [cd'|].
    + destruct H as [Hin Hid].
      rewrite (NoDup_map_inj cat_id cats cd' cd Hnd Hin Hcd Hid). now split.
    + exfalso. apply H. now apply list_elem_of_fmap_2.
  - intros k Hk. pose proof (find_by_id cats k) as H.
    destruct (List.find _ cats) as [cd'|]; [|now split].
    destruct H as [Hin Hid]. exfalso. apply Hk. rewrite <- Hid.
    now apply list_elem_of_fmap_2.
Qed.

(** A finding type is mapped to a category id exactly when the checks
    [get_checks_for_category] returns for that id contain it; the
    severity passed along plays no part. *)
Theorem mapping_agrees_with_checks (framework_name ft sev k : string) :
  k ∈ map_scanner_finding_to_categories framework_name ft sev
  <-> ft ∈ get_checks_for_category framework_name k.
Proof.
  pose proof (registered_ids_NoDup framework_name) as Hnd.
  rewrite map_scanner_finding_closed.
  unfold get_checks_for_category, get_category.
  set (cats := map snd (get_categories_for_framework framework_name)) in *.
  pose proof (find_by_id cats k) as H. split.
  - intros Hin. apply list_elem_of_fmap in Hin as (cd & -> & Hcd).
    apply list_elem_of_In, filter_In in Hcd as [Hcd Hft].
    apply list_elem_of_In in Hcd.
    destruct (List.find _ cats) as [cd'|].
    + destruct H as [Hin' Hid].
      rewrite (NoDup_map_inj cat_id cats cd' cd Hnd Hin' Hcd Hid).
      unfold Py.list_in in Hft. now apply bool_decide_eq_true in Hft.
    + exfalso. apply H. now apply list_elem_of_fmap_2.
  - destruct (List.find _ cats) as [cd'|]; [|intros Hin; inversion Hin].
    destruct H as [Hin' <-]. intros Hft.
    apply list_elem_of_fmap_2, list_elem_of_In, filter_In.
    split; [now apply list_elem_of_In|].
    unfold Py.list_in. now apply bool_decide_eq_true.
Qed.

Lemma unmatched_type (cats : list CategoryDef) (ft : string) :
  ft ∉ concat (map cat_checks cats) ->
  List.filter (fun cd => Py.list_in ft (cat_checks cd)) cats = [].
Proof.
  induction cats as [|c cats IH]; cbn [map concat List.filter]; [reflexivity|].
  intros Hft. apply not_elem_of_app in Hft as [Hc Hrest].
  unfold Py.list_in at 1. rewrite (bool_decide_eq_false_2 _ Hc). now apply IH.
Qed.

(** How many categories one finding type can reach: at most one under
    OWASP and CIS, whose check lists are disjoint, at most two under NIST,
    and none under a name that is no framework. *)
Theorem mapping_fan_out_bound (framework_name ft sev : string) :
  (length (map_scanner_finding_to_categories framework_name ft sev)
   <= match FrameworkType_of (Py.upper framework_name) with
      | Py.Ok NIST => 2
      | Py.Ok _ => 1
      | Py.Raise _ => 0
      end)%nat.
Proof.
  rewrite map_scanner_finding_closed. unfold get_categories_for_framework.
  destruct (FrameworkType_of (Py.upper framework_name)) as [t|e]; [|cbn; lia].
  destruct (decide (ft ∈ concat (map cat_checks (map snd (FRAMEWORK_MAPPINGS t)))))
    as [Hin|Hout].
  - revert ft Hin. apply Forall_forall.
    destruct t; apply (bool_decide_unpack _); vm_compute; exact I.
  - rewrite (unmatched_type _ _ Hout). destruct t; cbn; lia.
Qed.

Lemma get_categories_case (framework_name : string) :
  get_categories_for_framework (Py.lower framework_name)
  = get_categories_for_framework framework_name
  /\ get_categories_for_framework (Py.upper framework_name)
     = get_categories_for_framework framework_name.
Proof.
  unfold get_categories_for_framework.
  destruct (upper_lower framework_name) as (H1 & H2 & _). now rewrite H1, H2.
Qed.

Lemma process_tool_ext (tool : string) (m1 m2 : string -> Finding -> list string)
    (fw1 fw2 : string) (findings : gmap string (list Finding))
    (categorized : gmap string (list CategorizedFinding)) :
  (forall f : Finding, m1 fw1 f = m2 fw2 f) ->
  process_tool tool m1 fw1 findings categorized
  = process_tool tool m2 fw2 findings categorized.
Proof.
  intros H. unfold process_tool. revert categorized.
  induction (default [] (findings !! tool)) as [|f fs IH]; intros categorized;
    [reflexivity|].
  cbn [fold_left]. rewrite H. apply IH.
Qed.

Lemma categorize_findings_ext (fw1 fw2 : string)
    (findings : gmap string (list Finding)) :
  get_categories_for_framework fw1 = get_categories_for_framework fw2 ->
  categorize_findings fw1 findings = categorize_findings fw2 findings.
Proof.
  intros H. unfold categorize_findings.
  rewrite (process_tool_ext "bandit" _map_bandit_to_categories
             _map_bandit_to_categories fw1 fw2).
  - apply process_tool_ext. intros f.
    unfold _map_semgrep_to_categories, map_scanner_finding_to_categories.
    now rewrite H.
  - intros f.
    unfold _map_bandit_to_categories, map_scanner_finding_to_categories.
    now rewrite H.
Qed.

(** The framework name is read without regard to case: the registry, the
    classifier and the category scorer give the same results for a name,
    its upper-case and its lower-case forms. *)
Theorem framework_name_case_insensitive (framework_name : string)
    (findings : gmap string (list Finding))
    (cf : gmap string (list CategorizedFinding)) :
  Forall (fun name =>
            get_categories_for_framework name
            = get_categories_for_framework framework_name
            /\ categorize_findings name findings
               = categorize_findings framework_name findings
            /\ calculate_category_scores name cf
               = calculate_category_scores framework_name cf)
         [Py.lower framework_name; Py.upper framework_name].
Proof.
  destruct (get_categories_case framework_name) as [Hl Hu].
  repeat constructor; try assumption;
    try (apply categorize_findings_ext; assumption);
    unfold calculate_category_scores; congruence.
Qed.

Lemma unknown_framework_no_categories (framework_name : string) :
  Py.upper framework_name ∉ get_all_framework_names ->
  get_categories_for_framework framework_name = [].
Proof.
  intros H. unfold get_categories_for_framework, FrameworkType_of.
  destruct (String.eqb_spec (Py.upper framework_name) "OWASP") as [E|_];
    [exfalso; apply H; rewrite E; apply (bool_decide_unpack _); vm_compute; exact I|].
  destruct (String.eqb_spec (Py.upper framework_name) "CIS") as [E|_];
    [exfalso; apply H; rewrite E; apply (bool_decide_unpack _); vm_compute; exact I|].
  destruct (String.eqb_spec (Py.upper framework_name) "NIST") as [E|_];
    [exfalso; apply H; rewrite E; apply (bool_decide_unpack _); vm_compute; exact I|].
  reflexivity.
Qed.

Lemma process_tool_no_categories (tool : string)
    (mapper : string -> Finding -> list string) (framework_name : string)
    (findings : gmap string (list Finding))
    (categorized : gmap string (list CategorizedFinding)) :
  (forall f : Finding, mapper framework_name f = []) ->
  process_tool tool mapper framework_name findings categorized = categorized.
Proof.
  intros H. unfold process_tool. revert categorized.
  induction (default [] (findings !! tool)) as [|f fs IH]; intros categorized;
    [reflexivity|].
  cbn [fold_left]. rewrite H. cbn [fold_left]. apply IH.
Qed.

(** Under a name that is none of the framework names (in any case), every
    finding is left uncategorized, there are no category scores and no
    recommendations, and the overall score is 100 whatever was found. *)
Theorem unknown_framework_passes_vacuously (framework_name : string)
    (findings : gmap string (list Finding))
    (cf : gmap string (list CategorizedFinding)) :
  Py.upper framework_name ∉ get_all_framework_names ->
  categorize_findings framework_name findings = ∅
  /\ calculate_category_scores framework_name cf = []
  /\ get_category_recommendations framework_name cf = []
  /\ calculate_overall_score (calculate_category_scores framework_name cf)
     = Py.Ok 100%Q.
Proof.
  intros H. apply unknown_framework_no_categories in H.
  assert (Hs : calculate_category_scores framework_name cf = []).
  { unfold calculate_category_scores. now rewrite H. }
  split; [|split; [exact Hs|split]].
  - unfold categorize_findings.
    rewrite (process_tool_no_categories "bandit" _map_bandit_to_categories)
      by (intros f; unfold _map_bandit_to_categories,
            map_scanner_finding_to_categories; now rewrite H).
    now rewrite (process_tool_no_categories "semgrep" _map_semgrep_to_categories)
      by (intros f; unfold _map_semgrep_to_categories,
            map_scanner_finding_to_categories; now rewrite H).
  - unfold get_category_recommendations. now rewrite H.
  - now rewrite Hs.
Qed.

(** ** Fan-out of [categorize_findings] *)

Lemma append_to_lookup (e : CategorizedFinding)
    (cat : gmap string (list CategorizedFinding)) (k' k : string) :
  default [] (append_to e cat k' !! k)
  = default [] (cat !! k) ++ (if decide (k = k') then [e] else []).
Proof.
  unfold append_to. destruct (decide (k = k')) as [->|Hne].
  - now rewrite lookup_insert_eq.
  - rewrite lookup_insert_ne by congruence. now rewrite app_nil_r.
Qed.

Lemma fold_append_to_lookup (e : CategorizedFinding) (ks : list string)
    (cat : gmap string (list CategorizedFinding)) (k : string) :
  NoDup ks ->
  default [] (fold_left (append_to e) ks cat !! k)
  = default [] (cat !! k) ++ (if Py.list_in k ks then [e] else []).
Proof.
  revert cat. induction ks as [|k' ks IH]; intros cat Hnd.
  - cbn. now rewrite app_nil_r.
  - apply NoDup_cons in Hnd as [Hk' Hnd]. cbn [fold_left].
    rewrite (IH _ Hnd), append_to_lookup, <- app_assoc. f_equal.
    unfold Py.list_in.
    destruct (decide (k = k')) as [->|Hne].
    + rewrite (bool_decide_eq_false_2 _ Hk').
      rewrite bool_decide_eq_true_2 by left. reflexivity.
    + destruct (bool_decide_reflect (k ∈ ks)) as [Hin|Hout].
      * rewrite bool_decide_eq_true_2 by now right. reflexivity.
      * rewrite bool_decide_eq_false_2; [reflexivity|].
        intros Hc. apply elem_of_cons in Hc as [?|?]; contradiction.
Qed.

Lemma process_tool_lookup (tool : string)
    (mapper : string -> Finding -> list string) (framework_name : string)
    (findings : gmap string (list Finding))
    (cat : gmap string (list CategorizedFinding)) (k : string) :
  (forall f : Finding, NoDup (mapper framework_name f)) ->
  default [] (process_tool tool mapper framework_name findings cat !! k)
  = default [] (cat !! k)
    ++ map (entry_of tool)
           (List.filter (fun f => Py.list_in k (mapper framework_name f))
                        (default [] (findings !! tool))).
Proof.
  intros Hnd. unfold process_tool. revert cat.
  induction (default [] (findings !! tool)) as [|f fs IH]; intros cat.
  - cbn. now rewrite app_nil_r.
  - cbn [fold_left List.filter]. rewrite IH, fold_append_to_lookup by apply Hnd.
    rewrite <- app_assoc. f_equal.
    now destruct (Py.list_in k (mapper framework_name f)).
Qed.

Lemma append_to_filled (e : CategorizedFinding)
    (cat : gmap string (list CategorizedFinding)) (k' : string) :
  filled cat -> filled (append_to e cat k').
Proof.
  intros H k l. unfold append_to. destruct (decide (k = k')) as [->|Hne].
  - rewrite lookup_insert_eq. intros [= <-]. now destruct (default [] (cat !! k')).
  - rewrite lookup_insert_ne by congruence. apply H.
Qed.

Lemma process_tool_filled (tool : string)
    (mapper : string -> Finding -> list string) (framework_name : string)
    (findings : gmap string (list Finding))
    (cat : gmap string (list CategorizedFinding)) :
  filled cat -> filled (process_tool tool mapper framework_name findings cat).
Proof.
  unfold process_tool. revert cat.
  induction (default [] (findings !! tool)) as [|f fs IH]; intros cat Hcat;
    [exact Hcat|].
  cbn [fold_left]. apply IH.
  generalize (mapper framework_name f) as ks. intros ks. revert cat Hcat.
  induction ks as [|k ks IHk]; intros cat Hcat; [exact Hcat|].
  cbn [fold_left]. now apply IHk, append_to_filled.
Qed.

Lemma categorize_findings_filled (framework_name : string)
    (findings : gmap string (list Finding)) :
  filled (categorize_findings framework_name findings).
Proof.
  unfold categorize_findings. do 2 apply process_tool_filled.
  intros k l. now rewrite lookup_empty.
Qed.

Lemma categorize_findings_lookup (framework_name : string)
    (findings : gmap string (list Finding)) (k : string) :
  default [] (categorize_findings framework_name findings !! k)
  = map (entry_of "bandit")
        (List.filter
           (fun f => Py.list_in k (_map_bandit_to_categories framework_name f))
           (default [] (findings !! "bandit")))
    ++ map (entry_of "semgrep")
           (List.filter
              (fun f => Py.list_in k (_map_semgrep_to_categories framework_name f))
              (default [] (findings !! "semgrep"))).
Proof.
  unfold categorize_findings.
  rewrite process_tool_lookup
    by (intros f; apply map_scanner_finding_NoDup).
  rewrite process_tool_lookup
    by (intros f; apply map_scanner_finding_NoDup).
  now rewrite lookup_empty.
Qed.

Lemma mapped_id_registered (framework_name ft sev k : string) :
  Py.list_in k (map_scanner_finding_to_categories framework_name ft sev) = true ->
  k ∈ map cat_id (map snd (get_categories_for_framework framework_name)).
Proof.
  unfold Py.list_in. intros H. apply bool_decide_eq_true in H.
  rewrite map_scanner_finding_closed in H.
  apply list_elem_of_fmap in H as (cd & -> & Hcd).
  apply list_elem_of_In, filter_In in Hcd as [Hcd _].
  now apply list_elem_of_fmap_2, list_elem_of_In.
Qed.

(** [categorize_findings] is a fan-out in order: the list of a category id
    holds, for the bandit findings and then for the semgrep findings, in
    their input order, one entry per finding that maps to the id, and
    nothing else (findings filed under other tools are not read).  A
    category id is a key of the result exactly when that list is not
    empty, and every key is a category id of the framework. *)
Theorem categorize_findings_fan_out (framework_name : string)
    (findings : gmap string (list Finding)) (k : string) :
  let categorized := categorize_findings framework_name findings in
  default [] (categorized !! k)
  = map (entry_of "bandit")
        (List.filter
           (fun f => Py.list_in k (_map_bandit_to_categories framework_name f))
           (default [] (findings !! "bandit")))
    ++ map (entry_of "semgrep")
           (List.filter
              (fun f => Py.list_in k (_map_semgrep_to_categories framework_name f))
              (default [] (findings !! "semgrep")))
  /\ (k ∈ dom categorized <-> default [] (categorized !! k) <> [])
  /\ (k ∈ dom categorized ->
      k ∈ map cat_id (map snd (get_categories_for_framework framework_name))).
Proof.
  intros categorized. subst categorized.
  pose proof (categorize_findings_lookup framework_name findings k) as Hl.
  pose proof (categorize_findings_filled framework_name findings) as Hf.
  assert (Hdom : k ∈ dom (categorize_findings framework_name findings)
                 <-> default [] (categorize_findings framework_name findings !! k)
                     <> []).
  { rewrite elem_of_dom. split.
    - intros [l Hk]. rewrite Hk. cbn. now apply (Hf k).
    - destruct (categorize_findings framework_name findings !! k); [eauto|].
      intros H. now contradiction H. }
  split; [exact Hl|]. split; [exact Hdom|].
  intros Hk. apply Hdom in Hk. rewrite Hl in Hk.
  destruct (List.filter _ (default [] (findings !! "bandit"))) as [|f fs] eqn:Eb.
  - destruct (List.filter _ (default [] (findings !! "semgrep"))) as [|f fs] eqn:Es;
      [now contradiction Hk|].
    assert (Hin : In f (f :: fs)) by now left.
    rewrite <- Es in Hin. apply filter_In in Hin as [_ Hin].
    now apply mapped_id_registered in Hin.
  - assert (Hin : In f (f :: fs)) by now left.
    rewrite <- Eb in Hin. apply filter_In in Hin as [_ Hin].
    now apply mapped_id_registered in Hin.
Qed.

(** ** Identifiers the classifier produces and no category declares *)

Lemma dict_get_value {V : Type} (k : string) (v : V) (d : list (string * V)) :
  dict_get k d = Some v -> v ∈ map snd d.
Proof.
  induction d as [|[k' v'] d IH]; cbn [dict_get map snd]; [discriminate|].
  destruct (String.eqb k' k).
  - intros [= ->]. left.
  - intros H. right. now apply IH.
Qed.

Lemma mapping_of_recognized (framework_name ft sev : string) (t : FrameworkType) :
  FrameworkType_of (Py.upper framework_name) = Py.Ok t ->
  map_scanner_finding_to_categories framework_name ft sev
  = map cat_id (List.filter (fun cd => Py.list_in ft (cat_checks cd))
                            (framework_categories t)).
Proof.
  intros H. rewrite map_scanner_finding_closed.
  now rewrite (get_categories_recognized _ _ H).
Qed.

(** What the classifier recognises is mostly lost outside OWASP: a
    semgrep finding whose rule id contains any of the keywords reaches no
    category under CIS or NIST, and one classified as injection (the XML
    and XSS keywords) reaches none under any of the frameworks; a bandit
    finding whose type is in the lookup table reaches no category under
    NIST. *)
Theorem recognised_findings_left_uncategorized (framework_name : string)
    (t : FrameworkType) (finding : Finding) :
  FrameworkType_of (Py.upper framework_name) = Py.Ok t ->
  (semgrep_check_type finding = "injection" ->
   _map_semgrep_to_categories framework_name finding = [])
  /\ (t <> OWASP ->
      Py.any_in semgrep_keywords (semgrep_rule_id finding) = true ->
      _map_semgrep_to_categories framework_name finding = [])
  /\ (t = NIST ->
      is_Some (dict_get (bandit_issue_type finding) test_mappings) ->
      _map_bandit_to_categories framework_name finding = []).
Proof.
  intros Ht. split; [|split].
  - intros H. unfold _map_semgrep_to_categories.
    rewrite (mapping_of_recognized _ _ _ t Ht), H. now destruct t.
  - intros Hne Hkw. unfold _map_semgrep_to_categories.
    rewrite (mapping_of_recognized _ _ _ t Ht).
    pose proof (semgrep_some_keyword finding Hkw) as Hin.
    revert Hin. generalize (semgrep_check_type finding) as ct. apply Forall_forall.
    destruct t; [contradiction| |]; apply (bool_decide_unpack _); vm_compute; exact I.
  - intros -> [v Hv]. unfold _map_bandit_to_categories, bandit_check_type.
    fold (bandit_issue_type finding). rewrite Hv. cbn [Py.get].
    rewrite (mapping_of_recognized _ _ _ NIST Ht).
    apply dict_get_value in Hv. revert v Hv. apply Forall_forall.
    apply (bool_decide_unpack _); vm_compute; exact I.
Qed.

(** ** Recommendations *)

Lemma fold_dict_set_keyed {V : Type} (g : string * CategoryDef -> V)
    (l : list (string * CategoryDef)) (acc : list (string * V)) :
  NoDup (dict_keys acc ++ map cat_id (map snd l)) ->
  fold_left (fun d kv => dict_set (cat_id (snd kv)) (g kv) d) l acc
  = acc ++ map (fun kv => (cat_id (snd kv), g kv)) l.
Proof.
  revert acc. induction l as [|kv l IH]; intros acc Hnd.
  - cbn. now rewrite app_nil_r.
  - cbn [fold_left map]. cbn [map] in Hnd.
    assert (Hfresh : cat_id (snd kv) ∉ dict_keys acc).
    { intros Hin. apply NoDup_app in Hnd as (_ & Hdisj & _).
      apply (Hdisj _ Hin). left. }
    rewrite (dict_set_fresh _ _ _ Hfresh), IH.
    + now rewrite <- app_assoc.
    + unfold dict_keys. rewrite map_app. cbn [map fst].
      rewrite <- app_assoc. exact Hnd.
Qed.

Lemma get_category_recommendations_map (framework_name : string)
    (t : FrameworkType) (cf : gmap string (list CategorizedFinding)) :
  FrameworkType_of (Py.upper framework_name) = Py.Ok t ->
  get_category_recommendations framework_name cf
  = map (fun kv => (cat_id (snd kv),
                    category_recommendations framework_name cf (fst kv) (snd kv)))
        (FRAMEWORK_MAPPINGS t).
Proof.
  intros H. unfold get_category_recommendations.
  rewrite (get_categories_recognized _ _ H).
  rewrite (fold_dict_set_keyed
             (fun kv => category_recommendations framework_name cf (fst kv) (snd kv))).
  - reflexivity.
  - cbn [dict_keys map app]. apply category_ids_NoDup.
Qed.

Lemma category_guidance_nonempty (framework_name category_id : string)
    (cd : CategoryDef) :
  category_guidance framework_name category_id cd <> [].
Proof.
  unfold category_guidance.
  repeat match goal with
         | |- context [Py.str_in ?x ?y] => destruct (Py.str_in x y)
         end; discriminate.
Qed.

Lemma recommendations_lookup (framework_name : string) (t : FrameworkType)
    (cf : gmap string (list CategorizedFinding)) (kv : string * CategoryDef) :
  kv ∈ FRAMEWORK_MAPPINGS t ->
  dict_get (cat_id (snd kv))
    (map (fun kv0 => (cat_id (snd kv0),
            category_recommendations framework_name cf (fst kv0) (snd kv0)))
         (FRAMEWORK_MAPPINGS t))
  = Some (category_recommendations framework_name cf (fst kv) (snd kv)).
Proof.
  pose proof (category_ids_NoDup t) as Hnd.
  unfold category_ids, framework_categories in Hnd. revert Hnd.
  generalize (FRAMEWORK_MAPPINGS t) as l.
  induction l as [|c l IH]; intros Hl Hin; [inversion Hin|].
  cbn [map] in *. apply NoDup_cons in Hl as [Hc Hl]. cbn [dict_get].
  apply elem_of_cons in Hin as [->|Hin]; [now rewrite String.eqb_refl|].
  destruct (String.eqb_spec (cat_id (snd c)) (cat_id (snd kv))) as [E|_];
    [|now apply IH].
  exfalso. apply Hc. rewrite E.
  apply list_elem_of_fmap_2. now apply list_elem_of_fmap_2.
Qed.

(** For every recognized framework name, the recommendations have as
    keys exactly the category ids of the framework, in the order of its
    table; no list of recommendations is empty; and a category gets the
    single entry "No issues found in this category." exactly when it has
    no findings. *)
Theorem recommendations_cover_every_category (framework_name : string)
    (t : FrameworkType) (cf : gmap string (list CategorizedFinding)) :
  FrameworkType_of (Py.upper framework_name) = Py.Ok t ->
  let recommendations := get_category_recommendations framework_name cf in
  dict_keys recommendations = category_ids t
  /\ Forall (fun kv => snd kv <> []) recommendations
  /\ Forall (fun cd =>
               exists recs : list string,
                 dict_get (cat_id cd) recommendations = Some recs
                 /\ (recs = ["No issues found in this category."]
                     <-> findings_of cd cf = []))
            (framework_categories t).
Proof.
  intros H recommendations. subst recommendations.
  rewrite (get_category_recommendations_map _ t _ H).
  split; [|split].
  - unfold dict_keys, category_ids, framework_categories. rewrite !map_map.
    now apply map_ext.
  - apply Forall_fmap, Forall_forall. intros kv _. unfold compose. cbn [snd].
    unfold category_recommendations.
    destruct (default [] (cf !! cat_id (snd kv))); [discriminate|].
    apply category_guidance_nonempty.
  - unfold framework_categories. apply Forall_fmap, Forall_forall.
    intros kv Hkv. unfold compose.
    rewrite (recommendations_lookup _ t cf kv Hkv). eexists. split; [reflexivity|].
    unfold category_recommendations, findings_of.
    destruct (default [] (cf !! cat_id (snd kv))) as [|f fs]; [tauto|].
    split; [|discriminate]. intros Hrec. exfalso. revert Hrec.
    unfold category_guidance.
    repeat match goal with
           | |- context [Py.str_in ?x ?y] => destruct (Py.str_in x y)
           end; cbn; discriminate.
Qed.

(** The guidance is chosen by testing the framework name as it was given,
    although the categories are found without regard to case: under a
    recognized name that contains none of OWASP, CIS, NIST in upper case,
    every category with findings gets only the generic entry that names
    the category. *)
Theorem recommendations_need_upper_case_name (framework_name : string)
    (t : FrameworkType) (cf : gmap string (list CategorizedFinding)) :
  FrameworkType_of (Py.upper framework_name) = Py.Ok t ->
  Py.any_in ["OWASP"; "CIS"; "NIST"] framework_name = false ->
  Forall (fun cd =>
            findings_of cd cf <> [] ->
            dict_get (cat_id cd) (get_category_recommendations framework_name cf)
            = Some [String.append "Review "
                      (String.append (cat_name cd)
                                     " requirements and address findings")])
         (framework_categories t).
Proof.
  intros Ht Hname. rewrite (get_category_recommendations_map _ t _ Ht).
  unfold framework_categories. apply Forall_fmap, Forall_forall.
  intros kv Hkv. unfold compose. intros Hfs.
  rewrite (recommendations_lookup _ t cf kv Hkv). f_equal.
  unfold category_recommendations. unfold findings_of in Hfs.
  destruct (default [] (cf !! cat_id (snd kv))) as [|f fs]; [contradiction|].
  unfold Py.any_in in Hname. cbn [existsb] in Hname.
  apply orb_false_elim in Hname as [H1 Hname].
  apply orb_false_elim in Hname as [H2 Hname].
  apply orb_false_elim in Hname as [H3 _].
  unfold category_guidance. now rewrite H1, H2, H3.
Qed.

(** The guidance written for the CIS category Application Software
    Security is never returned: its test looks for AS in the key of the
    category, and no key of any table contains it.  So no list of
    recommendations, for any framework name and any findings, contains its
    first entry. *)
Theorem application_security_guidance_unreachable (framework_name : string)
    (cf : gmap string (list CategorizedFinding)) :
  Forall (fun kv => "Conduct regular security code reviews" ∉ snd kv)
         (get_category_recommendations framework_name cf).
Proof.
  destruct (FrameworkType_of (Py.upper framework_name)) as [t|e] eqn:Ht.
  - rewrite (get_category_recommendations_map _ t _ Ht).
    apply Forall_fmap. unfold compose. cbn [snd].
    assert (Hg : Forall (fun kv : string * CategoryDef =>
                           "Conduct regular security code reviews"
                           ∉ category_guidance framework_name (fst kv) (snd kv))
                        (FRAMEWORK_MAPPINGS t)).
    { unfold category_guidance.
      generalize (Py.str_in "OWASP" framework_name) as b1.
      generalize (Py.str_in "CIS" framework_name) as b2.
      generalize (Py.str_in "NIST" framework_name) as b3.
      intros [] [] []; destruct t; apply (bool_decide_unpack _); vm_compute; exact I. }
    eapply Forall_impl; [exact Hg|]. cbn. intros kv Hkv.
    unfold category_recommendations.
    destruct (default [] (cf !! cat_id (snd kv))); [|exact Hkv].
    intros Hin. apply list_elem_of_singleton in Hin. discriminate.
  - unfold get_category_recommendations, get_categories_for_framework.
    rewrite Ht. constructor.
Qed.

(** ** Further properties of the merges *)

Lemma merge_cases (key : string) (db : Database) (sid : string)
    (results raw : Blob) :
  (scan_results db !! sid = None
   /\ Workers.merge key db sid results raw = (db, Py.Ok tt))
  \/ (exists row : ScanResult,
        scan_results db !! sid = Some row /\ raw_output row = None
        /\ Workers.merge key db sid results raw
           = (db, Py.Raise (Py.TypeError
                              "'NoneType' object does not support item assignment")))
  \/ (exists (row : ScanResult) (ro : gmap string Blob),
        scan_results db !! sid = Some row /\ raw_output row = Some ro
        /\ Workers.merge key db sid results raw
           = (if Workers.falsy (findings row)
              then {| frameworks := frameworks db;
                      scan_results :=
                        <[sid := with_findings (Some {[key := results]}) row]>
                          (scan_results db) |}
              else db,
              Py.Ok tt)).
Proof.
  destruct (scan_results db !! sid) as [row|] eqn:Hrow.
  - destruct (raw_output row) as [ro|] eqn:Hro.
    + right. right. exists row, ro. repeat split; try assumption.
      now apply (merge_found _ _ _ _ _ row ro).
    + right. left. exists row. repeat split; try assumption.
      unfold Workers.merge, Session.query_first, Workers.assign_results.
      now rewrite Hrow, Hro.
  - left. split; [reflexivity|].
    unfold Workers.merge, Session.query_first. now rewrite Hrow.
Qed.




(** A merge writes to the two result columns of the one row at most: the
    frameworks, the set of scan ids and every other row are unchanged, the
    row keeps all its other columns, and when the merge raises nothing is
    written at all. *)
Theorem merge_frame (key : string) (db : Database) (sid : string)
    (results raw : Blob) :
  let db' := fst (Workers.merge key db sid results raw) in
  frameworks db' = frameworks db
  /\ dom (scan_results db') = dom (scan_results db)
  /\ (forall other : string,
         other <> sid -> scan_results db' !! other = scan_results db !! other)
  /\ with_results None None <$> (scan_results db' !! sid)
     = with_results None None <$> (scan_results db !! sid)
  /\ (forall e : Py.exc,
         snd (Workers.merge key db sid results raw) = Py.Raise e -> db' = db).
Proof.
  destruct (merge_cases key db sid results raw)
    as [[Hn H1]|[(row & Hrow & Hro & H1)|(row & ro & Hrow & Hro & H1)]];
    rewrite H1; cbn [fst snd]; try (repeat split; discriminate).
  destruct (Workers.falsy (findings row)); [|repeat split; discriminate].
  cbn [frameworks scan_results]. repeat split; try discriminate.
  - apply dom_insert_lookup_L. eauto.
  - intros other Hne. now rewrite lookup_insert_ne.
  - now rewrite lookup_insert_eq, Hrow.
Qed.

(** On a scan id that is not stored the SAST worker raises ValueError,
    while the DAST and SCA workers return their results as if all went
    well; none of them stores anything. *)
Theorem workers_on_missing_scan (db : Database) (sid : string)
    (scan : Py.result (Blob * Blob)) (results raw : Blob) :
  scan_results db !! sid = None ->
  Workers.run_sast_scan scan db sid
  = (db, Py.Raise (Py.ValueError (String.append "Scan " (String.append sid " not found"))))
  /\ Workers.run_dast_scan (Py.Ok (results, raw)) db sid = (db, Py.Ok results)
  /\ run_sca_scan (Py.Ok (results, raw)) db sid = (db, Py.Ok results).
Proof.
  intros H.
  unfold Workers.run_sast_scan, Workers.run_dast_scan, run_sca_scan,
    Workers.merge, Session.query_first.
  now rewrite H.
Qed.

(** On a row whose raw output is NULL every worker raises, and the
    findings it had assigned are not stored either. *)
Theorem workers_on_null_raw_output (db : Database) (sid : string)
    (row : ScanResult) (results raw : Blob) :
  scan_results db !! sid = Some row ->
  raw_output row = None ->
  Forall (fun run =>
            fst (run (Py.Ok (results, raw)) db sid) = db
            /\ exists msg : string,
                 snd (run (Py.Ok (results, raw)) db sid)
                 = Py.Raise (Py.TypeError msg))
         [Workers.run_sast_scan; Workers.run_dast_scan; run_sca_scan].
Proof.
  intros Hrow Hro.
  repeat constructor;
    unfold Workers.run_sast_scan, Workers.run_dast_scan, run_sca_scan,
      Workers.merge, Session.query_first, Workers.assign_results;
    rewrite Hrow, Hro; cbn; eauto.
Qed.

(** ** Workers in sequence and in a race *)





(** No event of a worker changes a column other than [findings]. *)
Lemma step_keeps_column {A : Type} (column : ScanResult -> A) (sid : string)
    (st : Workers.state) (ev : Workers.event) (k : string) :
  (forall (fs : option (gmap string Blob)) (r : ScanResult),
      column (with_findings fs r) = column r) ->
  column <$> (scan_results (fst (Workers.step sid st ev)) !! k)
  = column <$> (scan_results (fst st) !! k).
Proof.
  intros Hcol.
  destruct st as [db sessions]. destruct ev as [w|w]; cbn [Workers.step fst].
  - now destruct (Session.query_first db sid).
  - destruct (sessions !! Workers.w_key w) as [row|]; [|reflexivity].
    destruct (Workers.assign_results _ _ _ row) as [[obj []]|e]; try reflexivity.
    cbn [fst Session.commit_results Session.findings_replaced scan_results].
    destruct (decide (sid = k)) as [<-|Hne].
    + rewrite lookup_alter_eq. destruct (scan_results db !! sid); [|reflexivity].
      cbn. now rewrite Hcol.
    + now rewrite lookup_alter_ne.
Qed.

Lemma run_keeps_column {A : Type} (column : ScanResult -> A) (sid : string)
    (schedule : list Workers.event) (db : Database) (k : string) :
  (forall (fs : option (gmap string Blob)) (r : ScanResult),
      column (with_findings fs r) = column r) ->
  column <$> (scan_results (fst (Workers.run sid schedule db)) !! k)
  = column <$> (scan_results db !! k).
Proof.
  intros Hcol.
  unfold Workers.run. generalize (∅ : gmap string ScanResult) as sessions.
  revert db. induction schedule as [|ev schedule IH]; intros db sessions;
    [reflexivity|].
  cbn [fold_left]. destruct (Workers.step sid (db, sessions) ev) as [db' s'] eqn:E.
  rewrite IH. pose proof (step_keeps_column column sid (db, sessions) ev k Hcol) as H.
  now rewrite E in H.
Qed.

Lemma run_keeps_status (sid : string) (schedule : list Workers.event)
    (db : Database) (k : string) :
  status <$> (scan_results (fst (Workers.run sid schedule db)) !! k)
  = status <$> (scan_results db !! k).
Proof. now apply run_keeps_column. Qed.

(** The raw output of the scanners, which every worker sets under its key
    in the [raw_output] dict of the record, never reaches the store: in
    every schedule of worker events the [raw_output] column of every row
    is as it was, and so it is after each of the three workers has run. *)
Theorem raw_output_never_stored (sid : string) (schedule : list Workers.event)
    (scan : Py.result (Blob * Blob)) (db : Database) (k : string) :
  raw_output <$> (scan_results (fst (Workers.run sid schedule db)) !! k)
  = raw_output <$> (scan_results db !! k)
  /\ Forall (fun run =>
               raw_output <$> (scan_results (fst (run scan db sid)) !! k)
               = raw_output <$> (scan_results db !! k))
            [Workers.run_sast_scan; Workers.run_dast_scan; run_sca_scan].
Proof.
  split; [now apply run_keeps_column|].
  assert (Hm : forall key results raw,
             raw_output <$> (scan_results (fst (Workers.merge key db sid results raw)) !! k)
             = raw_output <$> (scan_results db !! k)).
  { intros key results raw.
    pose proof (merge_as_events {| Workers.w_key := key; Workers.w_results := results;
                                   Workers.w_raw := raw |} db sid) as E.
    cbn [Workers.w_key Workers.w_results Workers.w_raw] in E. rewrite <- E.
    now apply run_keeps_column. }
  repeat constructor;
    unfold Workers.run_sast_scan, Workers.run_dast_scan, run_sca_scan;
    destruct scan as [[results raw]|e];
    try destruct (Session.query_first db sid); try reflexivity;
    specialize (Hm "sast" results raw) as Hs;
    specialize (Hm "dast" results raw) as Hd;
    specialize (Hm "sca" results raw) as Hc;
    destruct (Workers.merge "sast" db sid results raw) as [? [[]|?]];
    destruct (Workers.merge "dast" db sid results raw) as [? [[]|?]];
    destruct (Workers.merge "sca" db sid results raw) as [? [[]|?]];
    assumption.
Qed.

Lemma step_query_found (sid : string) (db : Database)
    (sessions : gmap string ScanResult) (w : Workers.Worker) (row : ScanResult) :
  scan_results db !! sid = Some row ->
  Workers.step sid (db, sessions) (Workers.Query w)
  = (db, <[Workers.w_key w := row]> sessions).
Proof.
  intros H. cbn [Workers.step]. unfold Session.query_first. now rewrite H.
Qed.

Lemma step_commit_loaded (sid : string) (db : Database)
    (sessions : gmap string ScanResult) (w : Workers.Worker) (row : ScanResult)
    (ro : gmap string Blob) :
  sessions !! Workers.w_key w = Some row ->
  raw_output row = Some ro ->
  Workers.step sid (db, sessions) (Workers.Commit w)
  = (if Workers.falsy (findings row)
     then {| frameworks := frameworks db;
             scan_results :=
               alter (with_findings
                        (Some {[Workers.w_key w := Workers.w_results w]}))
                     sid (scan_results db) |}
     else db,
     sessions).
Proof.
  intros Hs Hro. cbn [Workers.step]. rewrite Hs.
  unfold Workers.assign_results. rewrite Hro. unfold Session.commit_results.
  cbn [Session.findings_replaced Session.attributes findings with_results].
  destruct (Workers.falsy (findings row)) eqn:Hf; [|reflexivity].
  now rewrite (falsy_empty _ Hf).
Qed.

(** Two workers with different keys that both query before either
    commits, on a record whose raw output is not NULL.  When the findings
    were NULL or empty, each session assigns a new dict and the later
    commit replaces what the earlier one stored: the final findings hold
    the later committer's key alone.  When they were not, neither commit
    writes and the findings are as before.  Either way the earlier
    committer's key is as it was before, its results gone. *)
Theorem overlapping_merges_lose_first (sid : string) (w1 w2 : Workers.Worker)
    (db : Database) (row : ScanResult) (ro : gmap string Blob) :
  scan_results db !! sid = Some row ->
  raw_output row = Some ro ->
  Workers.w_key w1 <> Workers.w_key w2 ->
  let final :=
    fst (Workers.run sid [Workers.Query w1; Workers.Query w2;
                          Workers.Commit w1; Workers.Commit w2] db) in
  let before := default ∅ (findings row) in
  findings <$> (scan_results final !! sid)
  = Some (if Workers.falsy (findings row)
          then Some {[Workers.w_key w2 := Workers.w_results w2]}
          else findings row)
  /\ (findings <$> (scan_results final !! sid))
       ≫= (fun fs => fs ≫= (fun m => m !! Workers.w_key w1))
     = before !! Workers.w_key w1.
Proof.
  intros Hrow Hro Hne final before. subst final.
  unfold Workers.run. cbn [fold_left].
  rewrite (step_query_found sid db ∅ w1 row Hrow).
  rewrite (step_query_found sid db _ w2 row Hrow).
  rewrite (step_commit_loaded sid db _ w1 row ro)
    by (rewrite ?lookup_insert_ne by congruence; rewrite ?lookup_insert_eq; done).
  rewrite (step_commit_loaded sid _ _ w2 row ro)
    by (rewrite ?lookup_insert_eq; done).
  destruct (Workers.falsy (findings row)) eqn:Hf; cbn [fst scan_results].
  - rewrite !lookup_alter_eq, Hrow. cbn. split; [reflexivity|].
    subst before. rewrite (falsy_empty _ Hf), lookup_empty.
    apply lookup_singleton_ne. congruence.
  - rewrite Hrow. cbn. split; [reflexivity|].
    subst before. now destruct (findings row).
Qed.

(** ** Further properties of scan initiation *)

(** The tasks of a scan depend only on which of sast, dast, sca occur in
    the requested types: they are queued in that fixed order, once each,
    whatever the order, the repetitions and the other entries of the
    request; every task carries the scan id, the repository and the
    priority. *)
Theorem scan_tasks_by_type (sid repository_url branch : string)
    (scan_types : list string) (priority : Z) :
  let tasks :=
    ScanOrchestrator.scan_tasks sid repository_url branch scan_types priority in
  map task_queue tasks
  = List.filter (fun q => Py.list_in q scan_types) ["sast"; "dast"; "sca"]
  /\ Forall (fun t =>
               task_priority t = priority
               /\ take 2 (task_args t) = [sid; repository_url])
            tasks.
Proof.
  unfold ScanOrchestrator.scan_tasks. cbn [List.filter].
  destruct (Py.list_in "sast" scan_types), (Py.list_in "dast" scan_types),
    (Py.list_in "sca" scan_types); cbn; split; try reflexivity;
    repeat constructor.
Qed.



(** ** Aggregation *)

Lemma finding_weight_range (finding : Finding) :
  (0.1 <= Aggregation.finding_weight finding <= 1)%Q.
Proof.
  unfold Aggregation.finding_weight, Aggregation.severity_weights.
  generalize (Py.lower (Py.get (f_severity finding) "low")) as sev. intros sev.
  cbn [dict_get].
  repeat (destruct (String.eqb _ sev); [cbn; split; discriminate|]).
  cbn. split; discriminate.
Qed.

Lemma tally_inner (fs : list Finding) (w : Q) (n : Z) :
  let r := fold_left
             (fun acc finding =>
                ((fst acc + Aggregation.finding_weight finding)%Q, (snd acc + 1)%Z))
             fs (w, n) in
  (n <= snd r)%Z
  /\ (snd r - n = Z.of_nat (length fs))%Z
  /\ (w + 0.1 * inject_Z (snd r - n) <= fst r <= w + inject_Z (snd r - n))%Q.
Proof.
  revert w n. induction fs as [|f fs IH]; intros w n; cbn zeta.
  - cbn [fold_left fst snd length]. rewrite Z.sub_diag.
    change (inject_Z 0) with 0%Q. repeat split; try lia; lra.
  - cbn [fold_left fst snd length].
    destruct (IH (w + Aggregation.finding_weight f)%Q (n + 1)%Z) as (H1 & H2 & H3).
    cbn zeta in H1, H2, H3.
    pose proof (finding_weight_range f) as [Hlo Hhi].
    set (r := fold_left _ fs _) in *.
    assert (E : (snd r - n = (snd r - (n + 1)) + 1)%Z) by lia.
    split; [lia|]. split; [lia|].
    rewrite E, inject_Z_plus. change (inject_Z 1) with 1%Q. split; lra.
Qed.

Lemma tally_range (its : list (string * list Finding)) :
  let r := Aggregation.tally its in
  snd r = Z.of_nat (length (concat (map snd its)))
  /\ (0.1 * inject_Z (snd r) <= fst r <= inject_Z (snd r))%Q.
Proof.
  unfold Aggregation.tally.
  assert (Hgen : forall (w : Q) (n : Z),
    let r := fold_left
               (fun acc kv =>
                  fold_left
                    (fun acc finding =>
                       ((fst acc + Aggregation.finding_weight finding)%Q,
                        (snd acc + 1)%Z)) (snd kv) acc) its (w, n) in
    (snd r - n = Z.of_nat (length (concat (map snd its))))%Z
    /\ (w + 0.1 * inject_Z (snd r - n) <= fst r <= w + inject_Z (snd r - n))%Q).
  { induction its as [|kv its IH]; intros w n; cbn zeta.
    - cbn [fold_left fst snd map concat length]. rewrite Z.sub_diag.
      change (inject_Z 0) with 0%Q. split; [lia|]. split; lra.
    - cbn [fold_left map concat]. rewrite length_app, Nat2Z.inj_add.
      destruct (tally_inner (snd kv) w n) as (I1 & I2 & I3). cbn zeta in I1, I2, I3.
      set (mid := fold_left _ (snd kv) (w, n)) in *.
      destruct mid as [w' n'] eqn:Emid. cbn [fst snd] in I1, I2, I3.
      destruct (IH w' n') as [H1 H2]. cbn zeta in H1, H2.
      set (r := fold_left _ its (w', n')) in *.
      assert (E : (snd r - n = (snd r - n') + (n' - n))%Z) by lia.
      split; [lia|]. rewrite E, inject_Z_plus. split; lra. }
  destruct (Hgen 0%Q 0%Z) as [H1 H2]. cbn zeta in H1, H2.
  rewrite Z.sub_0_r in H1, H2. split; [exact H1|]. split; lra.
Qed.

(** The score [aggregate_results] writes is exactly 100 when the record
    lists no finding, and lies between 0 and 90 as soon as it lists one:
    every finding, whatever its severity, weighs at least 0.1. *)
Theorem aggregate_score_range (its : list (string * list Finding)) :
  (concat (map snd its) = [] -> (Aggregation.compliance_of its == 100)%Q)
  /\ (concat (map snd its) <> [] ->
      (0 <= Aggregation.compliance_of its <= 90)%Q).
Proof.
  destruct (tally_range its) as [Hn Hw]. cbn zeta in Hn, Hw.
  unfold Aggregation.compliance_of.
  destruct (Aggregation.tally its) as [w n]. cbn [fst snd] in Hn, Hw.
  split; intros Hfs.
  - rewrite Hfs in Hn. cbn in Hn. subst n. cbn. reflexivity.
  - assert (Hpos : (0 < n)%Z).
    { destruct (concat (map snd its)); [contradiction|].
      cbn [length] in Hn. lia. }
    rewrite (proj2 (Z.ltb_lt 0 n) Hpos).
    apply (round2_between _ 0 90).
    assert (Hq : (0 < inject_Z n)%Q).
    { change 0%Q with (inject_Z 0). now rewrite <- Zlt_Qlt. }
    assert (Hd : (0.1 <= w / inject_Z n <= 1)%Q).
    { split.
      - apply Qle_shift_div_l; [exact Hq | lra].
      - apply Qle_shift_div_r; [exact Hq | lra]. }
    change (inject_Z 0) with 0%Q. change (inject_Z 90) with 90%Q. split; lra.
Qed.

Lemma initiated_status (accepts : Task -> bool)
    (uuid4 : string) (utcnow : Z) (db : Database) (queue : list Task)
    (repository_url branch : string) (fid : Z)
    (scan_types : list string) (priority : Z) :
  scan_results db !! uuid4 = None ->
  status <$> (scan_results
                (fst (fst (ScanOrchestrator.initiate_scan accepts uuid4 utcnow db
                             queue repository_url branch fid scan_types priority)))
              !! uuid4)
  ∈ [None; Some "in_progress"; Some "failed"].
Proof.
  intros Hfresh. unfold ScanOrchestrator.initiate_scan.
  destruct (Session.add_commit db _) as [db'|e] eqn:E.
  - apply add_commit_ok in E as (_ & _ & ->).
    destruct (ScanOrchestrator.send_all accepts _ queue) as [queue' [[]|e]];
      cbn [fst Session.commit_status scan_results scan_id];
      rewrite lookup_alter_eq, lookup_insert_eq; cbn;
      apply (bool_decide_unpack _); vm_compute; exact I.
  - cbn [fst]. rewrite Hfresh. left.
Qed.

(** The score of a scan that the orchestrator started is never
    aggregated: whatever the workers then do, in any schedule, the status
    of the record is in_progress or failed, and [aggregate_results]
    returns without touching the store. *)
Theorem aggregation_never_applies
    (items : option (gmap string Blob) -> Py.result (list (string * list Finding)))
    (accepts : Task -> bool)
    (uuid4 : string) (utcnow : Z) (db : Database) (queue : list Task)
    (repository_url branch : string) (fid : Z)
    (scan_types : list string) (priority : Z)
    (schedule : list Workers.event) :
  scan_results db !! uuid4 = None ->
  let started :=
    fst (fst (ScanOrchestrator.initiate_scan accepts uuid4 utcnow db queue
                repository_url branch fid scan_types priority)) in
  let merged := fst (Workers.run uuid4 schedule started) in
  Aggregation.aggregate_results items merged uuid4 = (merged, Py.Ok tt).
Proof.
  intros Hfresh started merged.
  pose proof (initiated_status accepts uuid4 utcnow db queue repository_url
                branch fid scan_types priority Hfresh) as Hst.
  fold started in Hst.
  rewrite <- (run_keeps_status uuid4 schedule started uuid4) in Hst.
  fold merged in Hst.
  unfold Aggregation.aggregate_results, Session.query_first.
  destruct (scan_results merged !! uuid4) as [row|]; [|reflexivity].
  cbn in Hst.
  apply elem_of_cons in Hst as [Hst|Hst]; [discriminate|].
  apply elem_of_cons in Hst as [Hst|Hst];
    [|apply list_elem_of_singleton in Hst];
    injection Hst as ->; reflexivity.
Qed.

(** ** The results endpoint *)

(** The results of a scan that the orchestrator started are never served:
    whatever the workers then do, in any schedule, [get_scan_results]
    answers 400 with the status in_progress or failed in its detail (or
    404 when the record could not be stored), never the findings. *)
Theorem results_never_served (accepts : Task -> bool)
    (uuid4 : string) (utcnow : Z) (db : Database) (queue : list Task)
    (repository_url branch : string) (fid : Z)
    (scan_types : list string) (priority : Z)
    (schedule : list Workers.event) :
  scan_results db !! uuid4 = None ->
  let started :=
    fst (fst (ScanOrchestrator.initiate_scan accepts uuid4 utcnow db queue
                repository_url branch fid scan_types priority)) in
  let merged := fst (Workers.run uuid4 schedule started) in
  Endpoints.get_scan_results merged uuid4
  ∈ [inr (Endpoints.HTTP 404 "Scan not found");
     inr (Endpoints.HTTP 400 "Scan is not complete. Current status: in_progress");
     inr (Endpoints.HTTP 400 "Scan is not complete. Current status: failed")].
Proof.
  intros Hfresh started merged.
  pose proof (initiated_status accepts uuid4 utcnow db queue repository_url
                branch fid scan_types priority Hfresh) as Hst.
  fold started in Hst.
  rewrite <- (run_keeps_status uuid4 schedule started uuid4) in Hst.
  fold merged in Hst.
  unfold Endpoints.get_scan_results, Session.query_first.
  destruct (scan_results merged !! uuid4) as [row|]; [|left].
  cbn in Hst.
  apply elem_of_cons in Hst as [Hst|Hst]; [discriminate|].
  apply elem_of_cons in Hst as [Hst|Hst];
    [|apply list_elem_of_singleton in Hst];
    injection Hst as ->; cbn.
  - right. left.
  - right. right. left.
Qed.

(** ** The further properties at concrete inputs *)

Lemma score_category_floor_witness :
  let cf := categorize_findings "OWASP"
              {["bandit" := [sql_finding; sql_finding; sql_finding; sql_finding]]} in
  (4 <= count_severity "CRITICAL" (findings_of A03_INJECTION cf))%Z
  /\ (entry_score (score_category A03_INJECTION cf) == 0)%Q.
Proof.
  cbv zeta.
  assert (H : (4 <= count_severity "CRITICAL"
                 (findings_of A03_INJECTION
                    (categorize_findings "OWASP"
                       {["bandit" := [sql_finding; sql_finding; sql_finding;
                                      sql_finding]]})))%Z).
  { apply Z.leb_le. vm_compute. reflexivity. }
  split; [exact H|]. apply score_category_floor. left. exact H.
Defined.


Lemma no_findings_score_100_witness :
  exists r : Q,
    calculate_overall_score (calculate_category_scores "nist" ∅) = Py.Ok r
    /\ (r == 100)%Q.
Proof.
  apply no_findings_score_100. intros k. reflexivity.
Defined.

Lemma get_category_round_trip_witness :
  ("A11" ∉ map cat_id (map snd (get_categories_for_framework "owasp")))
  /\ get_category "owasp" "A11" = None
  /\ get_checks_for_category "owasp" "A11" = [].
Proof.
  assert (H : "A11" ∉ map cat_id (map snd (get_categories_for_framework "owasp"))).
  { apply (bool_decide_unpack _). vm_compute. exact I. }
  split; [exact H|]. now apply (get_category_round_trip "owasp").
Defined.

Lemma unknown_framework_passes_vacuously_witness :
  (Py.upper "pci-dss" ∉ get_all_framework_names)
  /\ categorize_findings "pci-dss" {["bandit" := [sql_finding]]} = ∅
  /\ calculate_overall_score (calculate_category_scores "pci-dss" ∅) = Py.Ok 100%Q.
Proof.
  assert (H : Py.upper "pci-dss" ∉ get_all_framework_names).
  { apply (bool_decide_unpack _). vm_compute. exact I. }
  split; [exact H|].
  pose proof (unknown_framework_passes_vacuously "pci-dss"
                {["bandit" := [sql_finding]]} ∅ H) as (H1 & _ & _ & H4).
  split; assumption.
Defined.

Lemma categorize_findings_fan_out_witness :
  let categorized := categorize_findings "OWASP" {["bandit" := [sql_finding]]} in
  "A03" ∈ dom categorized
  /\ "A03" ∈ map cat_id (map snd (get_categories_for_framework "OWASP")).
Proof.
  cbv zeta.
  assert (H : "A03" ∈ dom (categorize_findings "OWASP" {["bandit" := [sql_finding]]})).
  { apply (bool_decide_unpack _). vm_compute. exact I. }
  split; [exact H|].
  now apply (categorize_findings_fan_out "OWASP" {["bandit" := [sql_finding]]} "A03").
Defined.

Lemma recognised_findings_left_uncategorized_witness :
  FrameworkType_of (Py.upper "nist") = Py.Ok NIST
  /\ Py.any_in semgrep_keywords (semgrep_rule_id semgrep_sql_finding) = true
  /\ is_Some (dict_get (bandit_issue_type sql_finding) test_mappings)
  /\ _map_semgrep_to_categories "nist" semgrep_sql_finding = []
  /\ _map_bandit_to_categories "nist" sql_finding = [].
Proof.
  assert (H3 : is_Some (dict_get (bandit_issue_type sql_finding) test_mappings)).
  { vm_compute. eauto. }
  split; [reflexivity|]. split; [reflexivity|]. split; [exact H3|].
  pose proof (recognised_findings_left_uncategorized "nist" NIST semgrep_sql_finding
                eq_refl) as (_ & Hs & _).
  pose proof (recognised_findings_left_uncategorized "nist" NIST sql_finding
                eq_refl) as (_ & _ & Hb).
  split; [apply Hs; [discriminate | reflexivity] | apply Hb; [reflexivity | exact H3]].
Defined.

Lemma recommendations_cover_every_category_witness :
  FrameworkType_of (Py.upper "OWASP") = Py.Ok OWASP
  /\ dict_keys (get_category_recommendations "OWASP"
                  (categorize_findings "OWASP" {["bandit" := [sql_finding]]}))
     = category_ids OWASP.
Proof.
  split; [reflexivity|].
  now apply (recommendations_cover_every_category "OWASP" OWASP).
Defined.

Lemma recommendations_need_upper_case_name_witness :
  FrameworkType_of (Py.upper "owasp") = Py.Ok OWASP
  /\ Py.any_in ["OWASP"; "CIS"; "NIST"] "owasp" = false
  /\ Forall (fun cd =>
               findings_of cd (categorize_findings "owasp" {["bandit" := [sql_finding]]})
               <> [] ->
               dict_get (cat_id cd)
                 (get_category_recommendations "owasp"
                    (categorize_findings "owasp" {["bandit" := [sql_finding]]}))
               = Some [String.append "Review "
                         (String.append (cat_name cd)
                                        " requirements and address findings")])
            (framework_categories OWASP).
Proof.
  split; [reflexivity|]. split; [reflexivity|].
  apply recommendations_need_upper_case_name; reflexivity.
Defined.

Lemma merge_frame_witness :
  let db1 := fst (fst (initiated ["sast"])) in
  "scan-2" <> "scan-1"
  /\ scan_results (fst (Workers.merge "sast" db1 "scan-1" (Json "a") (Json "b")))
       !! "scan-2"
     = scan_results db1 !! "scan-2".
Proof.
  cbv zeta. split; [discriminate|].
  apply (merge_frame "sast" (fst (fst (initiated ["sast"]))) "scan-1"
           (Json "a") (Json "b")).
  discriminate.
Defined.

Lemma workers_on_missing_scan_witness :
  scan_results empty_store !! "scan-9" = None
  /\ Workers.run_sast_scan sast_output empty_store "scan-9"
     = (empty_store, Py.Raise (Py.ValueError "Scan scan-9 not found"))
  /\ Workers.run_dast_scan (Py.Ok (Json "a", Json "b")) empty_store "scan-9"
     = (empty_store, Py.Ok (Json "a")).
Proof.
  split; [reflexivity|].
  pose proof (workers_on_missing_scan empty_store "scan-9" sast_output
                (Json "a") (Json "b") eq_refl) as (H1 & H2 & _).
  split; assumption.
Defined.

Lemma workers_on_null_raw_output_witness :
  (raw_output <$> (scan_results null_raw_store !! "scan-1")) = Some None
  /\ fst (Workers.run_dast_scan (Py.Ok (Json "a", Json "b")) null_raw_store "scan-1")
     = null_raw_store.
Proof.
  split; [reflexivity|].
  pose proof (workers_on_null_raw_output null_raw_store "scan-1" _
                (Json "a") (Json "b") eq_refl eq_refl) as H.
  apply Forall_cons in H as [_ H]. apply Forall_cons in H as [[H _] _]. exact H.
Defined.


Lemma overlapping_merges_lose_first_witness :
  let db1 := fst (fst (initiated ["sast"; "dast"])) in
  let final :=
    fst (Workers.run "scan-1"
           [Workers.Query sast_worker; Workers.Query dast_worker;
            Workers.Commit sast_worker; Workers.Commit dast_worker] db1) in
  findings <$> (scan_results final !! "scan-1")
  = Some (Some {["dast" := Json "{total_issues: 2}"]}).
Proof.
  cbv zeta.
  assert (exists row : ScanResult,
             scan_results (fst (fst (initiated ["sast"; "dast"]))) !! "scan-1"
             = Some row
             /\ raw_output row = Some ∅ /\ Workers.falsy (findings row) = true)
    as (row & Hrow & Hro & Hf).
  { eexists. split; [vm_compute; reflexivity|]. split; reflexivity. }
  destruct (overlapping_merges_lose_first "scan-1" sast_worker dast_worker
              _ row ∅ Hrow Hro) as [H _]; [discriminate|].
  rewrite H, Hf. reflexivity.
Defined.


Lemma aggregate_score_range_witness :
  concat (map snd [("sast", [sql_finding])]) <> []
  /\ (0 <= Aggregation.compliance_of [("sast", [sql_finding])] <= 90)%Q.
Proof.
  assert (H : concat (map snd [("sast", [sql_finding])]) <> []) by discriminate.
  split; [exact H|]. now apply aggregate_score_range.
Defined.

Lemma aggregation_never_applies_witness :
  let items := fun _ : option (gmap string Blob) =>
                 Py.Ok ([] : list (string * list Finding)) in
  let started := fst (fst (initiated ["sast"])) in
  let merged :=
    fst (Workers.run "scan-1" [Workers.Query sast_worker; Workers.Commit sast_worker]
                     started) in
  scan_results empty_store !! "scan-1" = None
  /\ Aggregation.aggregate_results items merged "scan-1" = (merged, Py.Ok tt).
Proof.
  cbv zeta. split; [reflexivity|].
  apply (aggregation_never_applies _ accept_all "scan-1" 0 empty_store []
           "https://example.org/repo.git" "main" 1 ["sast"] 5).
  reflexivity.
Defined.

Lemma results_never_served_witness :
  let started := fst (fst (initiated ["sast"])) in
  let merged :=
    fst (Workers.run "scan-1" [Workers.Query sast_worker; Workers.Commit sast_worker]
                     started) in
  scan_results empty_store !! "scan-1" = None
  /\ Endpoints.get_scan_results merged "scan-1"
     ∈ [inr (Endpoints.HTTP 404 "Scan not found");
        inr (Endpoints.HTTP 400 "Scan is not complete. Current status: in_progress");
        inr (Endpoints.HTTP 400 "Scan is not complete. Current status: failed")].
Proof.
  cbv zeta. split; [reflexivity|].
  apply (results_never_served accept_all "scan-1" 0 empty_store []
           "https://example.org/repo.git" "main" 1 ["sast"] 5).
  reflexivity.
Defined.
